(** * Shallow embedding of [master/pkg/schemas/gen.py]

    The generator reads JSON-Schema files, scrapes Go struct definitions
    with regular expressions, and emits Go (and Python) source.  Every
    definition below follows one function of [gen.py]; Python exceptions
    become [Err] values of the result monad [result]. *)

From Stdlib Require Import Ascii String ZArith Lia.
From stdpp Require Import base list strings sorting gmap.

Local Open Scope list_scope.

(** String concatenation, kept apart from the list [++]. *)
Infix "+++" := String.append (at level 60, right associativity).

Definition chr (n : nat) : string := String (ascii_of_nat n) EmptyString.
Definition TAB : string := chr 9.
Definition NL : string := chr 10.
Definition DQ : string := chr 34.

(** ** JSON values as [json.loads] returns them *)

(** Numbers are kept as integers; a JSON object is the list of its
    (distinct) keys with their values, in document order. *)
#[local] Set Warnings "-register-all".
Inductive json :=
| JNull
| JBool (b : bool)
| JNum (z : Z)
| JStr (s : string)
| JArr (l : list json)
| JObj (kvs : list (string * json)).

(** Python truthiness of a decoded JSON value. *)
Definition truthy (j : json) : bool :=
  match j with
  | JNull => false
  | JBool b => b
  | JNum z => negb (Z.eqb z 0)
  | JStr s => negb (String.eqb s EmptyString)
  | JArr l => negb (bool_decide (l = []))
  | JObj kvs => negb (bool_decide (kvs = []))
  end.

Fixpoint obj_lookup (kvs : list (string * json)) (k : string) : option json :=
  match kvs with
  | [] => None
  | (k', v) :: rest => if String.eqb k k' then Some v else obj_lookup rest k
  end.

(** ** Exceptions raised by the generator *)

Inductive error :=
| ErrInvalidJson (url : string)
| ErrPython (exc : string)
| ErrNotPointer (tag ty : string)
| ErrDoublePointer (tag ty : string)
| ErrNoStructAfter (start : nat)
| ErrUnsureLine (lineno : nat) (line : string)
| ErrStructNotFound (name : string)
| ErrBadTypeName (name : string)
| ErrSchemaNotFound
| ErrNestedUnion (name : string)
| ErrMultipleTypes (field : string) (types : list string) (union_types : list string)
| ErrBothKinds (name : string).

Inductive result (A : Type) : Type :=
| Ok (a : A)
| Err (e : error).
Arguments Ok {A} a.
Arguments Err {A} e.

Global Instance result_ret : MRet result := fun A a => Ok a.
Global Instance result_bind : MBind result :=
  fun A B f m => match m with Ok a => f a | Err e => Err e end.

Definition is_err {A} (r : result A) : bool :=
  match r with Ok _ => false | Err _ => true end.

(** [d[k]] *)
Definition py_getitem (j : json) (k : string) : result json :=
  match j with
  | JObj kvs =>
      match obj_lookup kvs k with
      | Some v => Ok v
      | None => Err (ErrPython "KeyError")
      end
  | _ => Err (ErrPython "TypeError")
  end.

(** [d.get(k, dflt)]; Python's [None] is [JNull]. *)
Definition py_get (j : json) (k : string) (dflt : json) : result json :=
  match j with
  | JObj kvs =>
      match obj_lookup kvs k with
      | Some v => Ok v
      | None => Ok dflt
      end
  | _ => Err (ErrPython "AttributeError")
  end.

(** A decoded value seen as a Python object that may be [None]. *)
Definition py_opt (j : json) : option json :=
  match j with JNull => None | v => Some v end.

(** ** Character and string helpers (ASCII) *)

Definition is_lower_c (c : ascii) : bool :=
  let n := nat_of_ascii c in (97 <=? n)%nat && (n <=? 122)%nat.
Definition is_upper_c (c : ascii) : bool :=
  let n := nat_of_ascii c in (65 <=? n)%nat && (n <=? 90)%nat.
Definition is_digit_c (c : ascii) : bool :=
  let n := nat_of_ascii c in (48 <=? n)%nat && (n <=? 57)%nat.
(** [str.isspace] and the [\s] class of [re] on ASCII. *)
Definition is_space_c (c : ascii) : bool :=
  let n := nat_of_ascii c in
  ((9 <=? n)%nat && (n <=? 13)%nat) || ((28 <=? n)%nat && (n <=? 32)%nat).

Definition lower_c (c : ascii) : ascii :=
  if is_upper_c c then ascii_of_nat (nat_of_ascii c + 32) else c.
Definition upper_c (c : ascii) : ascii :=
  if is_lower_c c then ascii_of_nat (nat_of_ascii c - 32) else c.

Definition lower (s : string) : string :=
  string_of_list_ascii (map lower_c (list_ascii_of_string s)).
Definition upper (s : string) : string :=
  string_of_list_ascii (map upper_c (list_ascii_of_string s)).

Definition startswith (s pre : string) : bool := String.prefix pre s.

Definition endswith (s suf : string) : bool :=
  (String.length suf <=? String.length s)%nat &&
  String.eqb (substring (String.length s - String.length suf) (String.length suf) s) suf.

(** [s[1:]] *)
Definition drop1 (s : string) : string :=
  match s with EmptyString => EmptyString | String _ s' => s' end.

(** [s[-2:]] *)
Definition last2 (s : string) : string :=
  if (2 <=? String.length s)%nat then substring (String.length s - 2) 2 s else s.

Fixpoint lstrip_l (l : list ascii) : list ascii :=
  match l with
  | c :: l' => if is_space_c c then lstrip_l l' else l
  | [] => []
  end.

(** [s.strip()] *)
Definition strip (s : string) : string :=
  string_of_list_ascii
    (rev (lstrip_l (rev (lstrip_l (list_ascii_of_string s))))).

(** ** [camel_to_snake] *)

Fixpoint camel_loop (l : list ascii) : list ascii :=
  match l with
  | c0 :: ((c1 :: c2 :: _) as t) =>
      (if is_lower_c c0 && is_upper_c c1 then ["_"%char] else [])
      ++ (if is_upper_c c0 && is_upper_c c1 && is_lower_c c2 then ["_"%char] else [])
      ++ [lower_c c1] ++ camel_loop t
  | _ => []
  end.

Definition camel_to_snake (name : string) : result string :=
  match list_ascii_of_string name with
  | [] => Err (ErrPython "IndexError")
  | (c :: _) as l =>
      Ok (string_of_list_ascii
            ([lower_c c] ++ camel_loop l ++ [lower_c (default c (last l))]))
  end.


(** ** Paths: [os.path.dirname] and [os.path.basename] (POSIX) *)

Fixpoint take_while {A} (p : A -> bool) (l : list A) : list A :=
  match l with x :: l' => if p x then x :: take_while p l' else [] | [] => [] end.
Fixpoint drop_while {A} (p : A -> bool) (l : list A) : list A :=
  match l with x :: l' => if p x then drop_while p l' else l | [] => [] end.

Definition slash : ascii := "/"%char.

(** [(p[:i], p[i:])] where [i = p.rfind('/') + 1]. *)
Definition split_last_slash (l : list ascii) : list ascii * list ascii :=
  let r := rev l in
  (rev (drop_while (fun c => negb (bool_decide (c = slash))) r),
   rev (take_while (fun c => negb (bool_decide (c = slash))) r)).

Definition rstrip_slash (l : list ascii) : list ascii :=
  rev (drop_while (fun c => bool_decide (c = slash)) (rev l)).

Definition dirname (p : string) : string :=
  let head := fst (split_last_slash (list_ascii_of_string p)) in
  string_of_list_ascii
    (if bool_decide (head <> []) && negb (forallb (fun c => bool_decide (c = slash)) head)
     then rstrip_slash head else head).

Definition basename (p : string) : string :=
  string_of_list_ascii (snd (split_last_slash (list_ascii_of_string p))).

Definition URLBASE : string := "http://determined.ai/schemas".

(** ** [class Schema] *)

Record Schema := mkSchema {
  url : string;
  text : string;
  schema : json;
  golang_title : string;
  python_title : string
}.

(** [Schema.version] *)
Definition version (s_url : string) : string := basename (dirname s_url).

(** ** [get_defaulted_type]

    Returns the after-defaulting type, the default ([None] when the
    property has no default or its default is JSON [null]) and the
    "required" value. *)
Definition get_defaulted_type (sch : Schema) (tag ty : string)
    : result (string * option json * json) :=
  props ← py_getitem (schema sch) "properties";
  prop0 ← py_get props tag (JObj []);
  let prop := match prop0 with JBool true => JObj [] | p => p end in
  dflt ← py_get prop "default" JNull;
  let default := py_opt dflt in
  req1 ← py_get (schema sch) "required" (JArr []);
  required ← (if truthy req1 then Ok req1
              else py_get (schema sch) "eventuallyRequired" (JArr []));
  match default with
  | None => Ok (ty, default, required)
  | Some _ =>
      if negb (startswith ty "*") then Err (ErrNotPointer tag ty)
      else if startswith ty "**" then Err (ErrDoublePointer tag ty)
      else Ok (drop1 ty, default, required)
  end.

(** ** Regular expressions of [find_struct] and [next_struct_name]

    Every pattern alternates [\S+] and [\s+] runs, so its groups are the
    maximal runs: the matcher below splits runs greedily. *)

Definition span_nonspace (l : list ascii) : list ascii * list ascii :=
  (take_while (fun c => negb (is_space_c c)) l, drop_while (fun c => negb (is_space_c c)) l).
Definition span_space (l : list ascii) : list ascii * list ascii :=
  (take_while is_space_c l, drop_while is_space_c l).

(** [\t([\S]+)\s+([\S]+)\s+] followed by the rest of the line. *)
Definition match_two_tokens (line : string) : option (string * string * list ascii) :=
  match list_ascii_of_string line with
  | c :: r =>
      if bool_decide (c = ascii_of_nat 9) then
        let '(g1, r1) := span_nonspace r in
        let '(w1, r2) := span_space r1 in
        let '(g2, r3) := span_nonspace r2 in
        let '(w2, r4) := span_space r3 in
        if bool_decide (g1 <> [] /\ w1 <> [] /\ g2 <> [] /\ w2 <> [])
        then Some (string_of_list_ascii g1, string_of_list_ascii g2, r4)
        else None
      else None
  | [] => None
  end.

(** [re.match("\t([\S]+)\s+([\S]+)\s+`union.*", line)] *)
Definition match_union (line : string) : option (string * string) :=
  match match_two_tokens line with
  | Some (f, t, rest) =>
      if startswith (string_of_list_ascii rest) "`union" then Some (f, t) else None
  | None => None
  end.

Definition not_comma_quote (c : ascii) : bool :=
  negb (bool_decide (c = ","%char)) && negb (bool_decide (c = ascii_of_nat 34)).

(** [re.match('\t([\S]+)\s+([\S]+)\s+`json:"([^,"]+)', line)] *)
Definition match_json (line : string) : option (string * string * string) :=
  match match_two_tokens line with
  | Some (f, t, rest) =>
      let pre := "`json:" +++ DQ in
      let r := string_of_list_ascii rest in
      if startswith r pre then
        let g3 := take_while not_comma_quote
                    (list_ascii_of_string (substring (String.length pre)
                                             (String.length r) r)) in
        if bool_decide (g3 <> []) then Some (f, t, string_of_list_ascii g3) else None
      else None
  | None => None
  end.

(** [re.match("type ([\S]+) struct", line)] *)
Definition match_type_struct (line : string) : option string :=
  if startswith line "type " then
    let r := list_ascii_of_string (substring 5 (String.length line) line) in
    let '(g1, r1) := span_nonspace r in
    if bool_decide (g1 <> []) && startswith (string_of_list_ascii r1) " struct"
    then Some (string_of_list_ascii g1) else None
  else None.

(** ** [find_struct] and [next_struct_name]

    A Go file is modelled by the list [f.readlines()] returns (each line
    keeps its newline). *)

(** [FieldSpec = (field, type, tag)], [UnionSpec = (field, type)] *)
Definition FieldSpec : Type := string * string * string.
Definition UnionSpec : Type := string * string.

Definition rstrip (s : string) : string :=
  string_of_list_ascii (rev (lstrip_l (rev (list_ascii_of_string s)))).

Inductive fs_state := Pre | Fields.

Fixpoint find_struct_loop (struct_name : string) (state : fs_state) (lineno : nat)
    (lines : list string) (field_spec : list FieldSpec) (union_spec : list UnionSpec)
    : result (list FieldSpec * list UnionSpec) :=
  match lines with
  | [] => Err (ErrStructNotFound struct_name)
  | line :: rest =>
      match state with
      | Pre =>
          if startswith line ("type " +++ struct_name +++ " struct")
          then find_struct_loop struct_name Fields (S lineno) rest field_spec union_spec
          else find_struct_loop struct_name Pre (S lineno) rest field_spec union_spec
      | Fields =>
          if String.eqb (strip line) "}" then Ok (field_spec, union_spec)
          else if String.eqb (strip line) EmptyString then
            find_struct_loop struct_name Fields (S lineno) rest field_spec union_spec
          else if startswith line (TAB +++ "//") then
            find_struct_loop struct_name Fields (S lineno) rest field_spec union_spec
          else match match_union line with
          | Some (field, ty) =>
              find_struct_loop struct_name Fields (S lineno) rest
                field_spec (union_spec ++ [(field, ty)])
          | None =>
              match match_json line with
              | Some (field, ty, tag) =>
                  find_struct_loop struct_name Fields (S lineno) rest
                    (field_spec ++ [(field, ty, tag)]) union_spec
              | None => Err (ErrUnsureLine lineno (rstrip line))
              end
          end
      end
  end.

Definition find_struct (file : list string) (struct_name : string)
    : result (list FieldSpec * list UnionSpec) :=
  find_struct_loop struct_name Pre 0 file [] [].

Fixpoint next_struct_loop (start lineno : nat) (lines : list string) : result string :=
  match lines with
  | [] => Err (ErrNoStructAfter start)
  | line :: rest =>
      if (lineno <=? start)%nat then next_struct_loop start (S lineno) rest
      else match match_type_struct line with
           | Some name => Ok name
           | None => next_struct_loop start (S lineno) rest
           end
  end.

Definition next_struct_name (file : list string) (start : nat) : result string :=
  next_struct_loop start 0 file.

(** Line classes of the [find_struct] scan, named after the tests the loop
    makes on a line inside the body. *)
Definition header_line (struct_name line : string) : bool :=
  startswith line ("type " +++ struct_name +++ " struct").
Definition closing_line (line : string) : bool := String.eqb (strip line) "}".
Definition skipped_line (line : string) : bool :=
  String.eqb (strip line) EmptyString || startswith line (TAB +++ "//").

Inductive line_kind := LSkip | LUnion (field ty : string) | LField (field ty tag : string).

Definition classify_line (line : string) : option line_kind :=
  if skipped_line line then Some LSkip
  else match match_union line with
       | Some (f, t) => Some (LUnion f t)
       | None => match match_json line with
                 | Some (f, t, g) => Some (LField f t g)
                 | None => None
                 end
       end.

Definition body_line_ok (line : string) : bool :=
  negb (closing_line line) && bool_decide (classify_line line <> None).

Fixpoint body_fields (body : list string) : list FieldSpec :=
  match body with
  | [] => []
  | l :: r => match classify_line l with
              | Some (LField f t g) => (f, t, g) :: body_fields r
              | _ => body_fields r
              end
  end.

Fixpoint body_unions (body : list string) : list UnionSpec :=
  match body with
  | [] => []
  | l :: r => match classify_line l with
              | Some (LUnion f t) => (f, t) :: body_unions r
              | _ => body_unions r
              end
  end.

(** ** Python string ordering *)

Definition str_le (a b : string) : Prop := String.leb a b = true.
Definition str_lt (a b : string) : bool := String.ltb a b.

(** Tuple comparison of [(str, str)] pairs. *)
Definition pair_le (p q : string * string) : Prop :=
  str_lt p.1 q.1 = true \/ (p.1 = q.1 /\ str_le p.2 q.2).

Global Instance str_le_dec a b : Decision (str_le a b).
Proof. unfold str_le. apply _. Defined.
Global Instance pair_le_dec p q : Decision (pair_le p q).
Proof. unfold pair_le. apply _. Defined.

(** [list.sort(key=...)] / [sorted(...)]: a stable merge sort. *)
Definition schema_url_le (s1 s2 : Schema) : Prop := str_le (url s1) (url s2).
Global Instance schema_url_le_dec s1 s2 : Decision (schema_url_le s1 s2).
Proof. unfold schema_url_le. apply _. Defined.

(** ** Python dicts [str -> str] as insertion-ordered association lists *)

Fixpoint dict_lookup (m : list (string * string)) (k : string) : option string :=
  match m with
  | [] => None
  | (k', v) :: rest => if String.eqb k k' then Some v else dict_lookup rest k
  end.

(** [m[k] = v] *)
Fixpoint dict_set (m : list (string * string)) (k v : string) : list (string * string) :=
  match m with
  | [] => [(k, v)]
  | (k', v') :: rest =>
      if String.eqb k k' then (k', v) :: rest else (k', v') :: dict_set rest k v
  end.

Definition dict_has (m : list (string * string)) (k : string) : bool :=
  match dict_lookup m k with Some _ => true | None => false end.

(** ** Emitted Go code

    The emitted functions have a fixed shape: a method header, a body of
    [if] guards, [return]s and [panic]s, and a closing brace.  They are
    kept as a small syntax tree, and [render_func] prints it with exactly
    the lines [gen.py] appends. *)

Inductive gexpr :=
| GNil
| GField (x f : string)
| GDeref (x f : string)
| GGetter (x f getter : string).

Inductive gstmt :=
| SIfNotNil (x f : string) (body : list gstmt)
| SIfNil (x f : string) (body : list gstmt)
| SReturn (e : gexpr)
| SPanic (msg : string).

Record gfunc := mkGfunc {
  fn_recv : string;
  fn_struct : string;
  fn_name : string;
  fn_ret : string;
  fn_body : list gstmt
}.

Fixpoint tabs (n : nat) : string :=
  match n with O => EmptyString | S n' => TAB +++ tabs n' end.

Definition render_expr (e : gexpr) : string :=
  match e with
  | GNil => "nil"
  | GField x f => x +++ "." +++ f
  | GDeref x f => "*" +++ x +++ "." +++ f
  | GGetter x f g => x +++ "." +++ f +++ ".Get" +++ g +++ "()"
  end.

Fixpoint render_stmt (ind : nat) (s : gstmt) : list string :=
  let render_body := fix go (b : list gstmt) : list string :=
    match b with [] => [] | s' :: b' => render_stmt (S ind) s' ++ go b' end in
  match s with
  | SIfNotNil x f body =>
      [tabs ind +++ "if " +++ x +++ "." +++ f +++ " != nil {"] ++ render_body body ++ [tabs ind +++ "}"]
  | SIfNil x f body =>
      [tabs ind +++ "if " +++ x +++ "." +++ f +++ " == nil {"] ++ render_body body ++ [tabs ind +++ "}"]
  | SReturn e => [tabs ind +++ "return " +++ render_expr e]
  | SPanic msg => [tabs ind +++ "panic(" +++ DQ +++ msg +++ DQ +++ ")"]
  end.

Definition render_func (fn : gfunc) : list string :=
  ["func (" +++ fn_recv fn +++ " " +++ fn_struct fn +++ ") " +++ fn_name fn +++ "() "
     +++ fn_ret fn +++ " {"]
  ++ concat (map (render_stmt 1) (fn_body fn))
  ++ ["}"].

(** *** Running an emitted function

    A receiver is modelled by its pointer fields: [None] is [nil],
    [Some v] points at the value [v]. *)

Inductive gval := VNil | VPtr (v : string) | VVal (v : string) | VCall (v g : string).

Inductive outcome := Returned (v : gval) | Panicked (msg : string) | FellThrough.

Definition eval_expr (env : string -> option string) (e : gexpr) : gval :=
  match e with
  | GNil => VNil
  | GField _ f => match env f with Some v => VPtr v | None => VNil end
  | GDeref _ f => match env f with Some v => VVal v | None => VNil end
  | GGetter _ f g => match env f with Some v => VCall v g | None => VNil end
  end.

Fixpoint exec_stmt (env : string -> option string) (s : gstmt) : outcome :=
  let exec_body := fix go (b : list gstmt) : outcome :=
    match b with
    | [] => FellThrough
    | s' :: b' => match exec_stmt env s' with FellThrough => go b' | o => o end
    end in
  match s with
  | SIfNotNil _ f body => match env f with Some _ => exec_body body | None => FellThrough end
  | SIfNil _ f body => match env f with None => exec_body body | Some _ => FellThrough end
  | SReturn e => Returned (eval_expr env e)
  | SPanic msg => Panicked msg
  end.

Fixpoint exec_body (env : string -> option string) (b : list gstmt) : outcome :=
  match b with
  | [] => FellThrough
  | s :: b' => match exec_stmt env s with FellThrough => exec_body env b' | o => o end
  end.

Definition call_func (env : string -> option string) (fn : gfunc) : outcome :=
  exec_body env (fn_body fn).

(** [struct[0].lower()] *)
Definition recv_name (struct : string) : result string :=
  match struct with
  | EmptyString => Err (ErrPython "IndexError")
  | String c _ => Ok (String (lower_c c) EmptyString)
  end.

(** ** [go_getters] *)

Definition getter_func (x struct field ty : string) (default : option json)
    (defaulted_type : string) : gfunc :=
  match default with
  | None => mkGfunc x struct ("Get" +++ field) ty [SReturn (GField x field)]
  | Some _ =>
      mkGfunc x struct ("Get" +++ field) defaulted_type
        [SIfNil x field
           [SPanic ("You must call WithDefaults on " +++ struct +++ " before .Get" +++ field)];
         SReturn (GDeref x field)]
  end.

Fixpoint go_getters_loop (x struct : string) (sch : Schema) (spec : list FieldSpec)
    : result (list string) :=
  match spec with
  | [] => Ok []
  | (field, ty, tag) :: rest =>
      '(defaulted_type, default, _) ← get_defaulted_type sch tag ty;
      more ← go_getters_loop x struct sch rest;
      Ok (render_func (getter_func x struct field ty default defaulted_type) ++ [EmptyString]
          ++ more)
  end.

Definition go_getters (struct : string) (sch : Schema) (spec : list FieldSpec)
    : result (list string) :=
  match spec with
  | [] => Ok []
  | _ => x ← recv_name struct; go_getters_loop x struct sch spec
  end.

(** ** Loading schemas, [find_schema] and union resolution

    [json_loads] stands for Python's [json.loads]: [None] when the text
    is not valid JSON.  A package directory tree is given by [listdir]:
    for the directory [package/version] it returns the entries in the
    order [os.listdir] yields them, each with its file text, or [None]
    when the directory does not exist. *)

Section Generator.

Variable json_loads : string -> option json.

(** [Schema.__init__] *)
Definition new_Schema (s_url s_text : string) : result Schema :=
  match json_loads s_text with
  | None => Err (ErrInvalidJson s_url)
  | Some j =>
      title ← py_getitem j "title";
      match title with
      | JStr t =>
          let g := t +++ upper (version s_url) in
          p ← camel_to_snake g;
          Ok (mkSchema s_url s_text j g p)
      | _ => Err (ErrPython "TypeError")
      end
  end.

(** [re.match(".*V[0-9]+", s) is not None]: [re.match] anchors at the
    start only, and [.] does not match a newline. *)
Fixpoint re_match_version (l : list ascii) : bool :=
  match l with
  | c1 :: ((c2 :: _) as t) =>
      (bool_decide (c1 = "V"%char) && is_digit_c c2)
      || (negb (bool_decide (c1 = ascii_of_nat 10)) && re_match_version t)
  | _ => false
  end.

(** [os.path.join(URLBASE, os.path.relpath(os.path.join(HERE, package, version, file), HERE))]
    for plain directory and file names. *)
Definition schema_url (package ver file : string) : string :=
  URLBASE +++ "/" +++ package +++ "/" +++ ver +++ "/" +++ file.

Fixpoint find_schema_loop (package ver struct : string) (entries : list (string * string))
    : result Schema :=
  match entries with
  | [] => Err ErrSchemaNotFound
  | (file, contents) :: rest =>
      if negb (endswith file ".json") then find_schema_loop package ver struct rest
      else
        sch ← new_Schema (schema_url package ver file) contents;
        if negb (String.eqb (golang_title sch) struct)
        then find_schema_loop package ver struct rest
        else Ok sch
  end.

Definition find_schema (listdir : string -> option (list (string * string)))
    (package struct : string) : result Schema :=
  if negb (re_match_version (list_ascii_of_string struct)) then Err (ErrBadTypeName struct)
  else
    let ver := lower (last2 struct) in
    match listdir (package +++ "/" +++ ver) with
    | None => Err (ErrPython "FileNotFoundError")
    | Some entries => find_schema_loop package ver struct entries
    end.

(** [read_schemas]: [rel file] is [os.path.relpath(file, HERE)] and
    [read_file] the text [open(file).read()] returns. *)
Fixpoint read_loop (rel : string -> string) (read_file : string -> option string)
    (files : list string) : result (list Schema) :=
  match files with
  | [] => Ok []
  | file :: rest =>
      let s_url := URLBASE +++ "/" +++ rel file in
      match read_file file with
      | None => Err (ErrPython "OSError")
      | Some t =>
          sch ← new_Schema s_url t;
          more ← read_loop rel read_file rest;
          Ok (sch :: more)
      end
  end.

Definition read_schemas (rel : string -> string) (read_file : string -> option string)
    (files : list string) : result (list Schema) :=
  schemas ← read_loop rel read_file files;
  Ok (merge_sort schema_url_le schemas).

(** One iteration of the [read_schemas] loop: [Schema(url, f.read())]. *)
Definition load_schema_file (rel : string -> string) (read_file : string -> option string)
    (file : string) : result Schema :=
  match read_file file with
  | None => Err (ErrPython "OSError")
  | Some t => new_Schema (URLBASE +++ "/" +++ rel file) t
  end.

(** The [members] dict of one union variant. *)
Fixpoint members_loop (sch : Schema) (spec : list FieldSpec) (members : list (string * string))
    : result (list (string * string)) :=
  match spec with
  | [] => Ok members
  | (field, ty, tag) :: rest =>
      '(ty', _, _) ← get_defaulted_type sch tag ty;
      members_loop sch rest (dict_set members field ty')
  end.

Fixpoint per_struct_loop (listdir : string -> option (list (string * string)))
    (file : list string) (package : string) (structs : list string)
    : result (list (list (string * string))) :=
  match structs with
  | [] => Ok []
  | struct :: rest =>
      sch ← find_schema listdir package struct;
      '(spec, union) ← find_struct file struct;
      if bool_decide (union <> []) then Err (ErrNestedUnion struct)
      else
        members ← members_loop sch spec [];
        more ← per_struct_loop listdir file package rest;
        Ok (members :: more)
  end.

(** [{members[field] for members in per_struct_members}] *)
Definition field_types (per : list (list (string * string))) (field : string) : list string :=
  remove_dups (map (fun m => default EmptyString (dict_lookup m field)) per).

(** The validation loop over [common_fields]; a Python set has no fixed
    iteration order, the model visits the fields in the first variant's order. *)
Fixpoint check_types (per : list (list (string * string))) (union_types : list string)
    (fields : list string) : result unit :=
  match fields with
  | [] => Ok ()
  | field :: rest =>
      if negb (length (field_types per field) =? 1)%nat
      then Err (ErrMultipleTypes field (field_types per field) union_types)
      else check_types per union_types rest
  end.

Definition get_union_common_members (listdir : string -> option (list (string * string)))
    (file : list string) (package : string) (union_types : list string)
    : result (list (string * string)) :=
  per ← per_struct_loop listdir file package union_types;
  match per with
  | [] => Err (ErrPython "IndexError")
  | m0 :: ms =>
      let common_fields :=
        filter (fun f => forallb (fun m => dict_has m f) ms = true) (map fst m0) in
      _ ← check_types per union_types common_fields;
      Ok (merge_sort pair_le
            (map (fun f => (f, default EmptyString (dict_lookup m0 f))) common_fields))
  end.

End Generator.

(** ** Per-type and aggregate emitters *)

Section Emitter.

Variable json_loads : string -> option json.

(** [lstrip("*")] *)
Definition lstrip_star (s : string) : string :=
  string_of_list_ascii (drop_while (fun c => bool_decide (c = "*"%char)) (list_ascii_of_string s)).

(** The [GetUnionMember] method emitted by [go_unions]. *)
Definition union_member_func (x struct : string) (union_spec : list UnionSpec) : gfunc :=
  mkGfunc x struct "GetUnionMember" "interface{}"
    (map (fun '(field, _) => SIfNotNil x field [SReturn GNil]) union_spec
     ++ [SPanic "no union member defined"]).

(** The getter of a common member emitted by [go_unions]. *)
Definition union_common_func (x struct : string) (union_spec : list UnionSpec)
    (common_field ty : string) : gfunc :=
  mkGfunc x struct ("Get" +++ common_field) ty
    (map (fun '(field, _) => SIfNotNil x field [SReturn (GGetter x field common_field)]) union_spec
     ++ [SPanic "no union member defined"]).

Definition go_unions (listdir : string -> option (list (string * string)))
    (struct package : string) (file : list string) (sch : Schema)
    (union_spec : list UnionSpec) : result (list string) :=
  match union_spec with
  | [] => Ok []
  | _ =>
      x ← recv_name struct;
      let head := render_func (union_member_func x struct union_spec) ++ [EmptyString] in
      let union_types := map (fun '(_, ty) => lstrip_star ty) union_spec in
      common_members ← get_union_common_members json_loads listdir file package union_types;
      Ok (head ++ concat (map (fun '(common_field, ty) =>
                                render_func (union_common_func x struct union_spec common_field ty)
                                ++ [EmptyString]) common_members))
  end.

Definition go_helpers (struct : string) : result (list string) :=
  x ← recv_name struct;
  Ok ["func (" +++ x +++ " " +++ struct +++ ") WithDefaults() " +++ struct +++ " {";
      TAB +++ "return schemas.WithDefaults(" +++ x +++ ").(" +++ struct +++ ")";
      "}";
      EmptyString;
      "func (" +++ x +++ " " +++ struct +++ ") Merge(other " +++ struct +++ ") " +++ struct +++ " {";
      TAB +++ "return schemas.Merge(" +++ x +++ ", other).(" +++ struct +++ ")";
      "}"].

Definition go_schema_interface (struct s_url : string) : result (list string) :=
  x ← recv_name struct;
  Ok [EmptyString;
      "func (" +++ x +++ " " +++ struct +++ ") ParsedSchema() interface{} {";
      TAB +++ "return schemas.Parsed" +++ struct +++ "()";
      "}";
      EmptyString;
      "func (" +++ x +++ " " +++ struct +++ ") SanityValidator() *jsonschema.Schema {";
      TAB +++ "return schemas.GetSanityValidator(" +++ DQ +++ s_url +++ DQ +++ ")";
      "}";
      EmptyString;
      "func (" +++ x +++ " " +++ struct +++ ") CompletenessValidator() *jsonschema.Schema {";
      TAB +++ "return schemas.GetCompletenessValidator(" +++ DQ +++ s_url +++ DQ +++ ")";
      "}"].

Definition gen_go_struct (listdir : string -> option (list (string * string)))
    (package : string) (file : list string) (line : nat) (imports : list string)
    : result (string * list string) :=
  struct ← next_struct_name file line;
  '(field_spec, union_spec) ← find_struct file struct;
  if bool_decide (field_spec <> [] /\ union_spec <> []) then Err (ErrBothKinds struct)
  else
    sch ← find_schema json_loads listdir package struct;
    let header :=
      ["// Code generated by gen.py. DO NOT EDIT."; EmptyString;
       "package " +++ package; EmptyString;
       "import (";
       TAB +++ DQ +++ "github.com/santhosh-tekuri/jsonschema/v2" +++ DQ]
      ++ map (fun imp => TAB +++ imp) imports
      ++ [EmptyString;
          TAB +++ DQ +++ "github.com/determined-ai/determined/master/pkg/schemas" +++ DQ;
          ")"; EmptyString] in
    getters ← go_getters struct sch field_spec;
    unions ← go_unions listdir struct package file sch union_spec;
    helpers ← go_helpers struct;
    iface ← go_schema_interface struct (url sch);
    snake ← camel_to_snake struct;
    Ok ("zgen_" +++ snake +++ ".go", header ++ getters ++ unions ++ helpers ++ iface).

End Emitter.

Definition gen_go_schemas_package (schemas : list Schema) : list string :=
  ["// Code generated by gen.py. DO NOT EDIT."; EmptyString;
   "package schemas"; EmptyString;
   "import ("; TAB +++ DQ +++ "encoding/json" +++ DQ; ")"; EmptyString;
   "var ("]
  ++ map (fun s => TAB +++ "text" +++ golang_title s +++ " = []byte(`" +++ text s +++ "`)") schemas
  ++ concat (map (fun s => [TAB +++ "schema" +++ golang_title s +++ " interface{}"; EmptyString]) schemas)
  ++ [TAB +++ "cachedSchemaMap map[string]interface{}"; EmptyString;
      TAB +++ "cachedSchemaBytesMap map[string][]byte"; ")"; EmptyString]
  ++ concat (map (fun s =>
       let g := golang_title s in
       ["func Parsed" +++ g +++ "() interface{} {";
        TAB +++ "if schema" +++ g +++ " != nil {";
        TAB +++ TAB +++ "return schema" +++ g;
        TAB +++ "}";
        TAB +++ "err := json.Unmarshal(text" +++ g +++ ", &schema" +++ g +++ ")";
        TAB +++ "if err != nil {";
        TAB +++ TAB +++ "panic(" +++ DQ +++ "invalid embedded json for " +++ g +++ DQ +++ ")";
        TAB +++ "}";
        TAB +++ "return schema" +++ g;
        "}"; EmptyString]) schemas)
  ++ ["func schemaBytesMap() map[string][]byte {";
      TAB +++ "if cachedSchemaBytesMap != nil {";
      TAB +++ TAB +++ "return cachedSchemaBytesMap";
      TAB +++ "}";
      TAB +++ "var url string";
      TAB +++ "cachedSchemaBytesMap = map[string][]byte{}"]
  ++ concat (map (fun s =>
       [TAB +++ "url = " +++ DQ +++ url s +++ DQ;
        TAB +++ "cachedSchemaBytesMap[url] = text" +++ golang_title s]) schemas)
  ++ [TAB +++ "return cachedSchemaBytesMap"; "}"].

(** ** [maybe_write_output]

    The file system maps a path to the text [open(path).read()] returns;
    the run records every write it performs. *)

Inductive write_event := WriteStdout (t : string) | WriteFile (path t : string).

Record io_state := mkIo {
  fsys : gmap string string;
  writes : list write_event
}.

Fixpoint join_nl (lines : list string) : string :=
  match lines with
  | [] => EmptyString
  | [l] => l
  | l :: rest => l +++ NL +++ join_nl rest
  end.

Definition maybe_write_output (lines : list string) (output : option string) (st : io_state)
    : io_state :=
  let t := join_nl lines +++ NL in
  match output with
  | None => mkIo (fsys st) (writes st ++ [WriteStdout t])
  | Some path =>
      match fsys st !! path with
      | Some current => if String.eqb current t then st
                        else mkIo (<[path := t]> (fsys st)) (writes st ++ [WriteFile path t])
      | None => mkIo (<[path := t]> (fsys st)) (writes st ++ [WriteFile path t])
      end
  end.


(** ** Listing schema files: [list_files]

    [os.path.join(a, b)] for two POSIX path components. *)
Definition path_join (a b : string) : string :=
  if startswith b "/" then b
  else if String.eqb a EmptyString || endswith a "/" then a +++ b
  else a +++ "/" +++ b.

(** [walk] is what [os.walk(os.path.join(HERE, package))] yields: the
    [(dirpath, files)] pairs in the order the walk visits them. *)
Definition list_files (walk : list (string * list string)) : list string :=
  merge_sort str_le
    (concat (map (fun '(dirpath, files) =>
                    map (fun f => path_join dirpath f)
                      (filter (fun f => endswith f ".json" = true) files)) walk)).

(** ** [gen_python] *)

Definition TQ : string := DQ +++ DQ +++ DQ.

Definition gen_python (schemas : list Schema) : list string :=
  ["# This is a generated file.  Editing it will make you sad."; EmptyString;
   "import json"; EmptyString; "schemas = {"]
  ++ concat (map (fun s =>
       ["    " +++ DQ +++ url s +++ DQ +++ ": json.loads(";
        "        r" +++ TQ +++ NL +++ text s +++ NL +++ TQ;
        "    ),"]) schemas)
  ++ ["}"].

(** ** Command-line entry points

    [fmt_import] of [go_struct_main]: [imp.replace(":", ' "') + '"'] when
    [imp] holds a colon, ['"' + imp + '"'] otherwise. *)
Fixpoint replace_colon (l : list ascii) : list ascii :=
  match l with
  | [] => []
  | c :: r =>
      if bool_decide (c = ":"%char) then " "%char :: ascii_of_nat 34 :: replace_colon r
      else c :: replace_colon r
  end.

Definition fmt_import (imp : string) : string :=
  if existsb (fun c => bool_decide (c = ":"%char)) (list_ascii_of_string imp)
  then string_of_list_ascii (replace_colon (list_ascii_of_string imp)) +++ DQ
  else DQ +++ imp +++ DQ.

(** [s.split(",")] *)
Fixpoint split_comma_l (l : list ascii) : list (list ascii) :=
  match l with
  | [] => [[]]
  | c :: r =>
      let ps := split_comma_l r in
      if bool_decide (c = ","%char) then [] :: ps
      else match ps with p :: ps' => (c :: p) :: ps' | [] => [[c]] end
  end.

Definition split_comma (s : string) : list string :=
  map string_of_list_ascii (split_comma_l (list_ascii_of_string s)).

(** [imports_list] of [go_struct_main]. *)
Definition imports_list (imports : option string) : list string :=
  match imports with
  | None => []
  | Some s => map fmt_import (filter (fun i => i <> EmptyString) (split_comma s))
  end.





(** ** Concrete inputs

    A small package [expconf/v1] and a Go file with a plain struct, a
    union and its two variants. *)

Definition go_line (s : string) : string := s +++ NL.
Definition json_tag (t : string) : string := "`json:" +++ DQ +++ t +++ DQ +++ "`".

Definition expconf_go : list string :=
  map go_line
    ["package expconf";
     "//go:generate ../gen.sh";
     "type FooV1 struct {";
     TAB +++ "Name *string " +++ json_tag "name";
     TAB +++ "Size *int " +++ json_tag "size";
     "}";
     "type UnionV1 struct {";
     TAB +++ "A *AlphaV1 `union:" +++ DQ +++ "type,alpha" +++ DQ +++ "`";
     TAB +++ "B *BetaV1 `union:" +++ DQ +++ "type,beta" +++ DQ +++ "`";
     "}";
     "type AlphaV1 struct {";
     TAB +++ "Name *string " +++ json_tag "name";
     TAB +++ "X int " +++ json_tag "x";
     "}";
     "type BetaV1 struct {";
     TAB +++ "// shared with AlphaV1";
     TAB +++ "Name *string " +++ json_tag "name";
     TAB +++ "Y int " +++ json_tag "y";
     "}";
     "type MixedV1 struct {";
     TAB +++ "Name *string " +++ json_tag "name";
     TAB +++ "A *AlphaV1 `union:" +++ DQ +++ "type,alpha" +++ DQ +++ "`";
     "}"]%string.

Definition foo_json : json :=
  JObj [("title", JStr "Foo");
        ("properties", JObj [("name", JObj [("default", JStr "anon")]);
                             ("size", JObj [("default", JNull)])]);
        ("required", JArr []);
        ("eventuallyRequired", JArr [JStr "name"])].

Definition titled (t : string) : json := JObj [("title", JStr t); ("properties", JObj [])].

(** [json.loads] on the texts of the fixture files. *)
Definition fixture_loads (t : string) : option json :=
  if String.eqb t "foo" then Some foo_json
  else if String.eqb t "union" then Some (titled "Union")
  else if String.eqb t "alpha" then Some (titled "Alpha")
  else if String.eqb t "beta" then Some (titled "Beta")
  else if String.eqb t "mixed" then Some (titled "Mixed")
  else None.

Definition fixture_listdir (d : string) : option (list (string * string)) :=
  if String.eqb d "expconf/v1" then
    Some [("foo.json", "foo"); ("union.json", "union"); ("alpha.json", "alpha");
          ("beta.json", "beta"); ("mixed.json", "mixed"); ("README.md", "docs")]%string
  else None.

Definition foo_schema : Schema :=
  mkSchema "http://determined.ai/schemas/expconf/v1/foo.json" "foo" foo_json "FooV1" "foo_v1".

(** [open(file).read()] on two of the fixture files, by path relative to
    the schemas directory. *)
Definition fixture_read_file (p : string) : option string :=
  if String.eqb p "expconf/v1/foo.json" then Some "foo"%string
  else if String.eqb p "expconf/v1/alpha.json" then Some "alpha"%string
  else None.

Definition foo_props : list (string * json) :=
  [("name", JObj [("default", JStr "anon")]); ("size", JObj [("default", JNull)])].

Definition union_v1_spec : list UnionSpec := [("A", "*AlphaV1"); ("B", "*BetaV1")]%string.

Definition union_v1_schema : Schema :=
  mkSchema "http://determined.ai/schemas/expconf/v1/union.json" "union" (titled "Union")
    "UnionV1" "union_v1".

(** A package holding a schema in a directory [b2], which is not a
    version directory. *)
Definition b2_loads (t : string) : option json :=
  if String.eqb t "odd" then Some (titled "AV1") else None.

Definition b2_listdir (d : string) : option (list (string * string)) :=
  if String.eqb d "expconf/b2" then Some [("odd.json", "odd")]%string else None.

(** * Properties *)

(** ** Sanity checks on concrete inputs *)

Example strip_ex : strip (TAB +++ "}" +++ NL) = "}"%string.
Proof. reflexivity. Qed.

Example camel_ex1 : camel_to_snake "ExperimentConfigV0" = Ok "experiment_config_v0"%string.
Proof. reflexivity. Qed.

Example camel_ex2 : camel_to_snake "HDFSConfigV0" = Ok "hdfs_config_v0"%string.
Proof. reflexivity. Qed.

Example version_ex :
  version "http://determined.ai/schemas/expconf/v1/hdfs.json" = "v1"%string.
Proof. reflexivity. Qed.

Example match_json_ex :
  match_json (TAB +++ "Path    *string `json:" +++ DQ +++ "path" +++ DQ +++ "`" +++ NL)
  = Some ("Path"%string, "*string"%string, "path"%string).
Proof. reflexivity. Qed.

Example match_union_ex :
  match_union (TAB +++ "SharedFS *SharedFSConfigV0 `union:" +++ DQ +++ "type" +++ DQ +++ "`" +++ NL)
  = Some ("SharedFS"%string, "*SharedFSConfigV0"%string).
Proof. reflexivity. Qed.

Example go_getters_lines :
  go_getters "FooV1" (mkSchema "u" "t" (JObj [("properties", JObj [])]) "FooV1" "foo_v1")
    [("Name", "*string", "name")]
  = Ok ["func (f FooV1) GetName() *string {"; TAB +++ "return f.Name"; "}"; EmptyString]%string.
Proof. reflexivity. Qed.


(** ** Python's string order is a total order *)

Ltac ascii_cmp_cases a b :=
  destruct (N.compare_spec (N_of_ascii a) (N_of_ascii b)).

Lemma str_compare_refl s : String.compare s s = Eq.
Proof.
  induction s as [|a s IH]; simpl; [done|].
  unfold Ascii.compare. rewrite N.compare_refl. exact IH.
Qed.

Lemma str_compare_lt_trans s1 s2 s3 :
  String.compare s1 s2 = Lt -> String.compare s2 s3 = Lt -> String.compare s1 s3 = Lt.
Proof.
  revert s2 s3; induction s1 as [|a s1 IH]; intros [|b s2] [|d s3]; simpl; try congruence.
  unfold Ascii.compare; intros H1 H2.
  ascii_cmp_cases a b; ascii_cmp_cases b d; ascii_cmp_cases a d;
    try congruence; try lia; eauto.
Qed.

Lemma str_compare_le_trans s1 s2 s3 :
  String.compare s1 s2 <> Gt -> String.compare s2 s3 <> Gt -> String.compare s1 s3 <> Gt.
Proof.
  revert s2 s3; induction s1 as [|a s1 IH]; intros [|b s2] [|d s3]; simpl; try congruence.
  unfold Ascii.compare; intros H1 H2.
  ascii_cmp_cases a b; ascii_cmp_cases b d; ascii_cmp_cases a d;
    try congruence; try lia; eauto.
Qed.

Lemma str_le_iff a b : str_le a b <-> String.compare a b <> Gt.
Proof. unfold str_le, String.leb. destruct (String.compare a b); intuition congruence. Qed.

Lemma str_lt_iff a b : str_lt a b = true <-> String.compare a b = Lt.
Proof. unfold str_lt, String.ltb. destruct (String.compare a b); intuition congruence. Qed.

Global Instance str_le_trans : Transitive str_le.
Proof. intros a b c. rewrite !str_le_iff. apply str_compare_le_trans. Qed.

Global Instance str_le_total : Total str_le.
Proof. intros a b. apply String.leb_total. Qed.

Lemma str_trichotomy a b :
  String.compare a b = Lt \/ a = b \/ String.compare b a = Lt.
Proof.
  destruct (String.compare a b) eqn:H.
  - right; left. by apply String.compare_eq_iff.
  - by left.
  - right; right. rewrite String.compare_antisym, H. done.
Qed.

Global Instance pair_le_trans : Transitive pair_le.
Proof.
  intros [a1 a2] [b1 b2] [c1 c2]; unfold pair_le; simpl; rewrite !str_lt_iff.
  intros [H1|[-> H1]] [H2|[-> H2]].
  - left. eauto using str_compare_lt_trans.
  - by left.
  - by left.
  - right. split; [done|]. by trans b2.
Qed.

Global Instance pair_le_total : Total pair_le.
Proof.
  intros [a1 a2] [b1 b2]; unfold pair_le; simpl; rewrite !str_lt_iff.
  destruct (str_trichotomy a1 b1) as [H|[->|H]]; auto.
  destruct (String.leb_total a2 b2); auto.
Qed.

Global Instance schema_url_le_trans : Transitive schema_url_le.
Proof. intros a b c. unfold schema_url_le. apply str_le_trans. Qed.

Global Instance schema_url_le_total : Total schema_url_le.
Proof. intros a b. apply str_le_total. Qed.

Example fixture_foo_schema :
  find_schema fixture_loads fixture_listdir "expconf" "FooV1" = Ok foo_schema.
Proof. reflexivity. Qed.

Example fixture_alpha_beta_common :
  get_union_common_members fixture_loads fixture_listdir expconf_go "expconf" ["AlphaV1"; "BetaV1"]
  = Ok [("Name", "*string")]%string.
Proof. reflexivity. Qed.

(** ** Unfolding the result monad *)

Ltac res_simpl :=
  unfold mbind, mret in *; cbn [result_bind result_ret] in *.

Ltac res_simpl_full :=
  repeat (unfold mbind, result_bind, mret, result_ret in *; simpl in *).

Ltac destruct_matches :=
  repeat match goal with
  | H : context [match ?x with _ => _ end] |- _ => destruct x eqn:?; try discriminate H
  | |- context [match ?x with _ => _ end] => destruct x eqn:?
  end.

(** [get_defaulted_type] once the [properties] object is found. *)
Lemma get_defaulted_type_props (sch : Schema) (tag ty : string) (props : list (string * json)) :
  py_getitem (schema sch) "properties" = Ok (JObj props) ->
  exists top, schema sch = JObj top /\
  get_defaulted_type sch tag ty =
    (let prop := match obj_lookup props tag with
                 | None | Some (JBool true) => JObj []
                 | Some p => p
                 end in
     let required := let r := default (JArr []) (obj_lookup top "required") in
                     if truthy r then r
                     else default (JArr []) (obj_lookup top "eventuallyRequired") in
     match prop with
     | JObj kvs =>
         match py_opt (default JNull (obj_lookup kvs "default")) with
         | None => Ok (ty, None, required)
         | Some d =>
             if negb (startswith ty "*") then Err (ErrNotPointer tag ty)
             else if startswith ty "**" then Err (ErrDoublePointer tag ty)
             else Ok (drop1 ty, Some d, required)
         end
     | _ => Err (ErrPython "AttributeError")
     end).
Proof.
  intros H. unfold get_defaulted_type. rewrite H.
  destruct (schema sch) as [| | | | |top] eqn:Es; try discriminate H.
  exists top. split; [done|]. res_simpl_full.
  destruct (obj_lookup top "required") as [r|] eqn:Er; simpl;
  destruct (obj_lookup props tag) as [p|] eqn:Ep; simpl;
  try destruct p as [|[]| | | |kvs]; simpl;
  try destruct (obj_lookup kvs "default") as [d|]; simpl;
  try destruct d; simpl;
  try destruct (truthy r); simpl;
  try destruct (obj_lookup top "eventuallyRequired"); simpl; reflexivity.
Qed.

(** ** Getters *)

Arguments render_func : simpl never.

Lemma go_getters_single (sch : Schema) (struct field tag ty dt : string)
    (default : option json) (req : json) (x : string) :
  get_defaulted_type sch tag ty = Ok (dt, default, req) ->
  recv_name struct = Ok x ->
  go_getters struct sch [(field, ty, tag)]
  = Ok (render_func (getter_func x struct field ty default dt) ++ [EmptyString]).
Proof.
  intros Hg Hx. unfold go_getters. rewrite Hx. res_simpl. cbn [go_getters_loop].
  rewrite Hg. res_simpl.
  rewrite ?app_nil_r. done.
Qed.

Lemma go_getters_loop_app (x struct : string) (sch : Schema) (pre post : list FieldSpec)
    (fld : FieldSpec) (lines : list string) :
  go_getters_loop x struct sch (pre ++ fld :: post) = Ok lines ->
  exists l1 l2 l3, lines = l1 ++ l2 ++ l3 /\ go_getters_loop x struct sch [fld] = Ok l2.
Proof.
  revert lines. induction pre as [|[[f t] tag] pre IH]; intros lines H.
  - destruct fld as [[f t] tag]. rewrite app_nil_l in H. cbn [go_getters_loop] in H. res_simpl.
    destruct (get_defaulted_type sch tag t) as [[[dt d] r]|] eqn:Eg; [|discriminate].
    destruct (go_getters_loop x struct sch post) as [more|] eqn:Em; [|discriminate].
    injection H as <-. exists [], (render_func (getter_func x struct f t d dt) ++ [EmptyString]), more.
    split; [unfold render_func; simpl; by rewrite <-?app_assoc|].
    cbn [go_getters_loop]. rewrite Eg. res_simpl. by rewrite ?app_nil_r.
  - rewrite <- app_comm_cons in H. cbn [go_getters_loop] in H. res_simpl.
    destruct (get_defaulted_type sch tag t) as [[[dt d] r]|] eqn:Eg; [|discriminate].
    destruct (go_getters_loop x struct sch (pre ++ fld :: post)) as [more|] eqn:Em; [|discriminate].
    injection H as <-. destruct (IH more eq_refl) as (l1 & l2 & l3 & -> & Hl2).
    exists ((render_func (getter_func x struct f t d dt) ++ [EmptyString]) ++ l1), l2, l3.
    split; [unfold render_func; simpl; by rewrite <-?app_assoc|done].
Qed.

Lemma go_getters_app (sch : Schema) (struct : string) (pre post : list FieldSpec)
    (fld : FieldSpec) (lines : list string) :
  go_getters struct sch (pre ++ fld :: post) = Ok lines ->
  exists l1 l2 l3, lines = l1 ++ l2 ++ l3 /\ go_getters struct sch [fld] = Ok l2.
Proof.
  unfold go_getters. destruct (pre ++ fld :: post) eqn:E; [by destruct pre|].
  rewrite <- E. destruct (recv_name struct) as [x|] eqn:Ex; res_simpl; [|discriminate].
  apply go_getters_loop_app.
Qed.

Lemma py_opt_some (d : json) : d <> JNull -> py_opt d = Some d.
Proof. destruct d; simpl; congruence. Qed.

(** C2: when the schema property of a field declares a (non-null) default,
    [get_defaulted_type] rejects a declared type that is not a pointer
    ("must be a pointer") or is a double pointer ("must not be a double
    pointer"); for a single pointer the effective type drops the [*], and
    the emitted getter returns that type, panicking when the stored pointer
    is nil and dereferencing it otherwise.  When the property has no
    default, the emitted getter returns the declared type and the field as
    it is.  The getter of each field of a struct is emitted as it is for
    that field alone. *)
Theorem C2_defaulted_getter_types (sch : Schema) (struct field tag ty : string)
    (props : list (string * json)) :
  py_getitem (schema sch) "properties" = Ok (JObj props) ->
  (forall kvs d,
     obj_lookup props tag = Some (JObj kvs) -> obj_lookup kvs "default" = Some d -> d <> JNull ->
     (startswith ty "*" = false -> get_defaulted_type sch tag ty = Err (ErrNotPointer tag ty)) /\
     (startswith ty "**" = true -> get_defaulted_type sch tag ty = Err (ErrDoublePointer tag ty)) /\
     (startswith ty "*" = true -> startswith ty "**" = false ->
        exists req, get_defaulted_type sch tag ty = Ok (drop1 ty, Some d, req) /\
        forall x, recv_name struct = Ok x ->
          let fn := getter_func x struct field ty (Some d) (drop1 ty) in
          go_getters struct sch [(field, ty, tag)] = Ok (render_func fn ++ [EmptyString]) /\
          fn_ret fn = drop1 ty /\
          (forall env, env field = None ->
             call_func env fn
             = Panicked ("You must call WithDefaults on " +++ struct +++ " before .Get" +++ field)) /\
          (forall env v, env field = Some v -> call_func env fn = Returned (VVal v)))) /\
  ((obj_lookup props tag = None \/ obj_lookup props tag = Some (JBool true) \/
    exists kvs, obj_lookup props tag = Some (JObj kvs) /\ obj_lookup kvs "default" = None) ->
     exists req, get_defaulted_type sch tag ty = Ok (ty, None, req) /\
     forall x, recv_name struct = Ok x ->
       let fn := getter_func x struct field ty None ty in
       go_getters struct sch [(field, ty, tag)] = Ok (render_func fn ++ [EmptyString]) /\
       fn_ret fn = ty /\
       forall env, call_func env fn = Returned (eval_expr env (GField x field))) /\
  (forall pre post lines,
     go_getters struct sch (pre ++ (field, ty, tag) :: post) = Ok lines ->
     exists l1 l2 l3, lines = l1 ++ l2 ++ l3 /\ go_getters struct sch [(field, ty, tag)] = Ok l2).
Proof.
  intros Hp. destruct (get_defaulted_type_props sch tag ty props Hp) as (top & Es & Eg).
  split; [|split].
  - intros kvs d Hk Hd Hn. rewrite Eg. cbv zeta. rewrite Hk, Hd. simpl default.
    rewrite (py_opt_some d Hn).
    split; [intros H1; by rewrite H1|]. split.
    { intros H2. assert (startswith ty "*" = true) as H1.
      { clear -H2. unfold startswith in *.
        destruct ty as [|c [|c' s]]; cbn [String.prefix] in H2 |- *; try discriminate H2;
        destruct (ascii_dec "*" c); congruence. }
      by rewrite H1, H2. }
    intros H1 H2. rewrite H1, H2. simpl negb. cbv iota.
    eexists. split; [reflexivity|]. intros x Hx. cbv zeta.
    split; [eapply go_getters_single; [|exact Hx]; rewrite Eg; cbv zeta; rewrite Hk, Hd;
            simpl default; rewrite (py_opt_some d Hn), H1, H2; reflexivity|].
    split; [done|]. split.
    + intros env He. unfold call_func, getter_func. simpl. by rewrite He.
    + intros env v He. unfold call_func, getter_func. simpl. by rewrite He.
  - intros Hnd.
    assert (exists req, get_defaulted_type sch tag ty = Ok (ty, None, req)) as [req Hreq].
    { rewrite Eg. cbv zeta.
      destruct Hnd as [Hk|[Hk|(kvs & Hk & Hd)]]; rewrite Hk; [| |rewrite Hd]; simpl; eauto. }
    exists req. split; [done|]. intros x Hx. cbv zeta.
    split; [by eapply go_getters_single|]. split; [done|].
    intros env. reflexivity.
  - intros pre post lines H. by eapply go_getters_app.
Qed.

Lemma C2_defaulted_getter_types_witness :
  py_getitem (schema foo_schema) "properties" = Ok (JObj foo_props) /\
  exists req, get_defaulted_type foo_schema "name" "*string" = Ok ("string"%string, Some (JStr "anon"), req).
Proof.
  split; [reflexivity|].
  destruct (C2_defaulted_getter_types foo_schema "FooV1" "Name" "name" "*string" foo_props eq_refl)
    as [H _].
  destruct (H [("default", JStr "anon")] (JStr "anon") eq_refl eq_refl ltac:(discriminate))
    as (_ & _ & H3).
  destruct (H3 eq_refl eq_refl) as [req [Hr _]]. exists req. exact Hr.
Defined.

(** C10: a property whose default is JSON [null] ([prop.get("default")]
    is [None]) is treated as having no default: no pointer constraint, the
    declared type is returned unchanged, and the emitted getter returns the
    field as it is without any nil check. *)
Theorem C10_null_default_is_no_default (sch : Schema) (struct field tag ty : string)
    (props kvs : list (string * json)) :
  py_getitem (schema sch) "properties" = Ok (JObj props) ->
  obj_lookup props tag = Some (JObj kvs) ->
  obj_lookup kvs "default" = Some JNull ->
  exists req, get_defaulted_type sch tag ty = Ok (ty, None, req) /\
  forall x, recv_name struct = Ok x ->
    go_getters struct sch [(field, ty, tag)]
    = Ok (render_func (mkGfunc x struct ("Get" +++ field) ty [SReturn (GField x field)])
          ++ [EmptyString]) /\
    forall env, call_func env (mkGfunc x struct ("Get" +++ field) ty [SReturn (GField x field)])
                = Returned (eval_expr env (GField x field)).
Proof.
  intros Hp Hk Hd. destruct (get_defaulted_type_props sch tag ty props Hp) as (top & Es & Eg).
  assert (exists req, get_defaulted_type sch tag ty = Ok (ty, None, req)) as [req Hreq].
  { rewrite Eg. cbv zeta. rewrite Hk, Hd. simpl. eauto. }
  exists req. split; [done|]. intros x Hx. split.
  - exact (go_getters_single sch struct field tag ty ty None req x Hreq Hx).
  - intros env. reflexivity.
Qed.

Lemma C10_null_default_is_no_default_witness :
  py_getitem (schema foo_schema) "properties" = Ok (JObj foo_props) /\
  obj_lookup foo_props "size" = Some (JObj [("default", JNull)]) /\
  exists req, get_defaulted_type foo_schema "size" "int" = Ok ("int"%string, None, req).
Proof.
  split; [reflexivity|]. split; [reflexivity|].
  destruct (C10_null_default_is_no_default foo_schema "FooV1" "Size" "size" "int" foo_props
              [("default", JNull)] eq_refl eq_refl eq_refl) as [req [Hr _]].
  exists req. exact Hr.
Defined.

(** ** Required metadata *)

(** C9 (as amended): the "required" value is the schema's [required]
    value when it is present and truthy; otherwise (absent, or present but
    falsy such as an empty list) it is the [eventuallyRequired] value, or
    an empty list when that is absent too. *)
Theorem C9_required_fallback (sch : Schema) (tag ty : string) (top : list (string * json))
    (t : string) (d : option json) (req : json) :
  schema sch = JObj top ->
  get_defaulted_type sch tag ty = Ok (t, d, req) ->
  req = (let r := default (JArr []) (obj_lookup top "required") in
         if truthy r then r else default (JArr []) (obj_lookup top "eventuallyRequired")).
Proof.
  intros Es Hg.
  assert (exists props, py_getitem (schema sch) "properties" = Ok (JObj props)) as [props Hp].
  { unfold get_defaulted_type in Hg. rewrite Es in Hg |- *. unfold py_getitem in *.
    res_simpl. destruct (obj_lookup top "properties") as [p|]; [|discriminate].
    destruct p; try discriminate Hg. eauto. }
  destruct (get_defaulted_type_props sch tag ty props Hp) as (top' & Es' & Eg).
  rewrite Es in Es'. injection Es' as <-. rewrite Eg in Hg. cbv zeta in Hg.
  destruct (obj_lookup props tag) as [[|[]| | | |kvs]|]; try discriminate Hg;
  try destruct (py_opt (default JNull (obj_lookup kvs "default")));
  try destruct (negb (startswith ty "*")); try destruct (startswith ty "**");
  try discriminate Hg; injection Hg as <- <- <-; reflexivity.
Qed.

Lemma C9_required_fallback_witness :
  schema foo_schema = foo_json /\
  get_defaulted_type foo_schema "size" "int" = Ok ("int"%string, None, JArr [JStr "name"]) /\
  JArr [JStr "name"] = (let r := default (JArr []) (obj_lookup
                            [("title", JStr "Foo"); ("properties", JObj foo_props);
                             ("required", JArr []); ("eventuallyRequired", JArr [JStr "name"])]
                            "required") in
                        if truthy r then r
                        else default (JArr []) (obj_lookup
                            [("title", JStr "Foo"); ("properties", JObj foo_props);
                             ("required", JArr []); ("eventuallyRequired", JArr [JStr "name"])]
                            "eventuallyRequired")).
Proof.
  split; [reflexivity|]. split; [reflexivity|].
  exact (C9_required_fallback foo_schema "size" "int" _ "int" None _ eq_refl eq_refl).
Defined.

(** C9 counterexample: [required] is present (an empty list), yet the
    value returned is the [eventuallyRequired] list. *)
Lemma C9_required_present_but_falls_back :
  obj_lookup (match schema foo_schema with JObj top => top | _ => [] end) "required"
    = Some (JArr []) /\
  get_defaulted_type foo_schema "size" "int" = Ok ("int"%string, None, JArr [JStr "name"]) /\
  JArr [JStr "name"] <> JArr [].
Proof. split; [reflexivity|]. split; [reflexivity|]. discriminate. Qed.

(** ** Per-type generation *)

(** C7: when the struct found after the directive has both plain fields
    and union fields, [gen_go_struct] fails with the "both union tags and
    normal fields" error and returns no code, whatever the schema tree. *)
Theorem C7_struct_and_union_rejected (json_loads : string -> option json)
    (listdir : string -> option (list (string * string))) (package : string)
    (file : list string) (line : nat) (imports : list string) (struct : string)
    (fs : list FieldSpec) (us : list UnionSpec) :
  next_struct_name file line = Ok struct ->
  find_struct file struct = Ok (fs, us) ->
  fs <> [] -> us <> [] ->
  gen_go_struct json_loads listdir package file line imports = Err (ErrBothKinds struct).
Proof.
  intros Hn Hf Hfs Hus. unfold gen_go_struct. rewrite Hn. res_simpl. rewrite Hf. res_simpl.
  rewrite bool_decide_eq_true_2; [reflexivity|tauto].
Qed.

Lemma C7_struct_and_union_rejected_witness :
  next_struct_name expconf_go 18 = Ok "MixedV1"%string /\
  gen_go_struct fixture_loads fixture_listdir "expconf" expconf_go 18 []
  = Err (ErrBothKinds "MixedV1").
Proof.
  split; [reflexivity|].
  apply (C7_struct_and_union_rejected fixture_loads fixture_listdir "expconf" expconf_go 18 []
           "MixedV1" [("Name", "*string", "name")]
           [("A", "*AlphaV1")]); [reflexivity|reflexivity|discriminate|discriminate].
Defined.

(** ** Output writer *)

(** C8: without a destination the text goes to standard output; when the
    destination holds exactly the rendered text nothing is written and the
    state is unchanged; otherwise the destination is overwritten. *)
Theorem C8_write_if_changed (lines : list string) (st : io_state) (path : string) :
  let t := join_nl lines +++ NL in
  maybe_write_output lines None st = mkIo (fsys st) (writes st ++ [WriteStdout t]) /\
  (fsys st !! path = Some t -> maybe_write_output lines (Some path) st = st) /\
  (fsys st !! path <> Some t ->
   maybe_write_output lines (Some path) st
   = mkIo (<[path := t]> (fsys st)) (writes st ++ [WriteFile path t])).
Proof.
  cbv zeta. split; [reflexivity|]. unfold maybe_write_output. split.
  - intros H. rewrite H, String.eqb_refl. reflexivity.
  - intros H. destruct (fsys st !! path) as [cur|]; [|reflexivity].
    destruct (String.eqb_spec cur (join_nl lines +++ NL)) as [->|]; [done|reflexivity].
Qed.

Lemma C8_write_if_changed_witness :
  let st := mkIo (<["zgen_foo_v1.go" := "a" +++ NL]> ∅) [] in
  fsys st !! "zgen_foo_v1.go" = Some (join_nl ["a"] +++ NL) /\
  maybe_write_output ["a"] (Some "zgen_foo_v1.go") st = st.
Proof.
  cbv zeta. split; [reflexivity|].
  apply (C8_write_if_changed ["a"] _ "zgen_foo_v1.go"). reflexivity.
Defined.

(** ** Union dispatch *)

Lemma exec_union_member_body (env : string -> option string) (x : string)
    (union_spec : list UnionSpec) (msg : string) :
  exec_body env (map (fun '(field, _) => SIfNotNil x field [SReturn GNil]) union_spec
                 ++ [SPanic msg])
  = if existsb (fun '(field, _) => match env field with Some _ => true | None => false end)
               union_spec
    then Returned VNil else Panicked msg.
Proof.
  induction union_spec as [|[f t] us IH]; [reflexivity|].
  cbn [map app exec_body existsb]. simpl exec_stmt. destruct (env f); [reflexivity|exact IH].
Qed.

(** C1 (code bug): the [GetUnionMember] method that [go_unions] emits
    tests the union fields in declared order and panics with "no union
    member defined" when none is set, but every branch returns [nil]: for
    a value whose member is set it returns [nil], not that member. *)
Theorem C1_union_member_returns_nil (json_loads : string -> option json)
    (listdir : string -> option (list (string * string)))
    (struct package : string) (file : list string) (sch : Schema)
    (union_spec : list UnionSpec) (lines : list string) :
  union_spec <> [] ->
  go_unions json_loads listdir struct package file sch union_spec = Ok lines ->
  exists x rest,
    lines = render_func (union_member_func x struct union_spec) ++ [EmptyString] ++ rest /\
    forall env,
      call_func env (union_member_func x struct union_spec)
      = if existsb (fun '(field, _) => match env field with Some _ => true | None => false end)
                   union_spec
        then Returned VNil else Panicked "no union member defined".
Proof.
  intros Hne H. unfold go_unions in H. destruct union_spec as [|u us]; [done|].
  destruct (recv_name struct) as [x|] eqn:Ex; res_simpl; [|discriminate].
  destruct (get_union_common_members _ _ _ _ _) as [cm|]; res_simpl; [|discriminate].
  injection H as <-. eexists x, _. split; [by rewrite <-app_assoc|].
  intros env. apply exec_union_member_body.
Qed.

Lemma C1_union_member_returns_nil_witness :
  exists lines x rest,
    go_unions fixture_loads fixture_listdir "UnionV1" "expconf" expconf_go union_v1_schema
      union_v1_spec = Ok lines /\
    lines = render_func (union_member_func x "UnionV1" union_v1_spec) ++ [EmptyString] ++ rest /\
    call_func (fun f => if String.eqb f "A" then Some "alpha-value"%string else None)
      (union_member_func x "UnionV1" union_v1_spec) = Returned VNil.
Proof.
  destruct (C1_union_member_returns_nil fixture_loads fixture_listdir "UnionV1" "expconf"
              expconf_go union_v1_schema union_v1_spec _ ltac:(discriminate) eq_refl)
    as (x & rest & Hl & Hcall).
  eexists _, x, rest. split; [reflexivity|]. split; [exact Hl|].
  rewrite (Hcall (fun f => if String.eqb f "A" then Some "alpha-value"%string else None)).
  reflexivity.
Defined.

(** ** Resolving a schema from a type name *)

(** C3 (code bug): [find_schema] checks the type name with
    [re.match(".*V[0-9]+", struct)], which is anchored at the start only,
    so a name that does not end in [V<digits>] passes the check: for
    [AV1B2] it reads directory [b2] and returns the schema there. *)
Theorem C3_version_suffix_not_enforced :
  re_match_version (list_ascii_of_string "AV1B2") = true /\
  last2 "AV1B2" = "B2"%string /\
  exists s, find_schema b2_loads b2_listdir "expconf" "AV1B2" = Ok s /\
            golang_title s = "AV1B2"%string /\
            url s = "http://determined.ai/schemas/expconf/b2/odd.json"%string.
Proof.
  split; [reflexivity|]. split; [reflexivity|].
  eexists. split; [reflexivity|]. split; reflexivity.
Qed.

(** ** Scanning a Go file for a struct *)

Lemma find_struct_loop_fields_cons (name : string) (n : nat) (l : string)
    (rest : list string) (fs : list FieldSpec) (us : list UnionSpec) :
  find_struct_loop name Fields n (l :: rest) fs us =
  if closing_line l then Ok (fs, us)
  else match classify_line l with
       | Some LSkip => find_struct_loop name Fields (S n) rest fs us
       | Some (LUnion f t) => find_struct_loop name Fields (S n) rest fs (us ++ [(f, t)])
       | Some (LField f t g) => find_struct_loop name Fields (S n) rest (fs ++ [(f, t, g)]) us
       | None => Err (ErrUnsureLine n (rstrip l))
       end.
Proof.
  unfold closing_line, classify_line, skipped_line. cbn [find_struct_loop].
  destruct (String.eqb (strip l) "}"); [reflexivity|].
  destruct (String.eqb (strip l) EmptyString); [reflexivity|]. cbn [orb].
  destruct (startswith l (TAB +++ "//")); [reflexivity|].
  destruct (match_union l) as [[f t]|]; [reflexivity|].
  destruct (match_json l) as [[[f t] g]|]; reflexivity.
Qed.

Lemma find_struct_loop_pre (name : string) (pre rest : list string) (n : nat)
    (fs : list FieldSpec) (us : list UnionSpec) :
  forallb (fun x => negb (header_line name x)) pre = true ->
  find_struct_loop name Pre n (pre ++ rest) fs us =
  find_struct_loop name Pre (n + length pre) rest fs us.
Proof.
  revert n. induction pre as [|x pre IH]; intros n H.
  - by rewrite Nat.add_0_r.
  - cbn [forallb] in H. apply andb_true_iff in H as [Hx H].
    rewrite <-app_comm_cons. cbn [find_struct_loop].
    unfold header_line in Hx. destruct (startswith x _); [discriminate|].
    rewrite IH by exact H. f_equal. cbn [length]. lia.
Qed.

Lemma find_struct_loop_body (name : string) (body rest : list string) (n : nat)
    (fs : list FieldSpec) (us : list UnionSpec) :
  forallb body_line_ok body = true ->
  find_struct_loop name Fields n (body ++ rest) fs us =
  find_struct_loop name Fields (n + length body) rest
    (fs ++ body_fields body) (us ++ body_unions body).
Proof.
  revert n fs us. induction body as [|x body IH]; intros n fs us H.
  - by rewrite Nat.add_0_r, !app_nil_r.
  - cbn [forallb] in H. apply andb_true_iff in H as [Hx H].
    unfold body_line_ok in Hx. apply andb_true_iff in Hx as [Hc Hk].
    apply negb_true_iff in Hc. apply bool_decide_eq_true in Hk.
    rewrite <-app_comm_cons, find_struct_loop_fields_cons, Hc.
    cbn [body_fields body_unions length].
    destruct (classify_line x) as [[|f t|f t g]|]; [| | |congruence];
      rewrite IH by exact H; rewrite <-?app_assoc;
      (replace (S n + length body)%nat with (n + S (length body))%nat by lia); reflexivity.
Qed.

(** A comment line indented with spaces rather than a tab is not skipped:
    [find_struct] rejects it as an unclassifiable body line. *)
Lemma C6_space_indented_comment_rejected :
  find_struct ["type FooV1 struct {" +++ NL; "    // note" +++ NL; "}" +++ NL]%string "FooV1"
  = Err (ErrUnsureLine 1 "    // note").
Proof. reflexivity. Qed.

(** C6 (amended). Let the file be [pre ++ hdr :: body ++ l :: rest], where no
    line of [pre] starts with [type <name> struct], [hdr] does, and every line
    of [body] is not a closing line ([strip] gives ["}"]) and is classified:
    skipped (blank after [strip], or starting with a tab and [//]), a union
    field or a json-tagged field. Then: if [l] is a closing line, [find_struct]
    returns the fields and union fields of [body] in order; if [l] is neither
    closing, skipped nor a field of either shape, it fails with the
    unsure-line error at [l]'s 0-based line number; a file with no header line
    ([pre] alone), or whose body runs to the end of the file
    ([pre ++ hdr :: body]), fails with the not-found error. *)
Theorem C6_find_struct_scan (name hdr l : string) (pre body rest : list string)
    (Hpre : forallb (fun x => negb (header_line name x)) pre = true)
    (Hhdr : header_line name hdr = true)
    (Hbody : forallb body_line_ok body = true) :
  (closing_line l = true ->
   find_struct (pre ++ hdr :: body ++ l :: rest) name
   = Ok (body_fields body, body_unions body)) /\
  (closing_line l = false -> classify_line l = None ->
   find_struct (pre ++ hdr :: body ++ l :: rest) name
   = Err (ErrUnsureLine (length pre + S (length body)) (rstrip l))) /\
  find_struct (pre ++ hdr :: body) name = Err (ErrStructNotFound name) /\
  find_struct pre name = Err (ErrStructNotFound name).
Proof.
  unfold find_struct.
  assert (Hstep : forall tl, find_struct_loop name Pre 0 (pre ++ hdr :: tl) [] []
                             = find_struct_loop name Fields (S (length pre)) tl [] []).
  { intros tl. rewrite find_struct_loop_pre by exact Hpre.
    cbn [find_struct_loop]. unfold header_line in Hhdr. by rewrite Hhdr. }
  split; [|split; [|split]].
  - intros Hl. rewrite Hstep, find_struct_loop_body by exact Hbody.
    rewrite find_struct_loop_fields_cons, Hl. reflexivity.
  - intros Hl Hk. rewrite Hstep, find_struct_loop_body by exact Hbody.
    rewrite find_struct_loop_fields_cons, Hl, Hk.
    by replace (S (length pre) + length body)%nat with (length pre + S (length body))%nat by lia.
  - rewrite Hstep. rewrite <-(app_nil_r body), find_struct_loop_body by exact Hbody.
    reflexivity.
  - rewrite <-(app_nil_r pre), find_struct_loop_pre by exact Hpre. reflexivity.
Qed.

Lemma C6_find_struct_scan_witness :
  find_struct (firstn 14 expconf_go ++ nth 14 expconf_go EmptyString
                 :: firstn 3 (skipn 15 expconf_go) ++ nth 18 expconf_go EmptyString
                 :: skipn 19 expconf_go) "BetaV1"
  = Ok ([("Name", "*string", "name"); ("Y", "int", "y")]%string, []) /\
  find_struct (firstn 14 expconf_go ++ nth 14 expconf_go EmptyString
                 :: firstn 3 (skipn 15 expconf_go)) "BetaV1"
  = Err (ErrStructNotFound "BetaV1").
Proof.
  destruct (C6_find_struct_scan "BetaV1" (nth 14 expconf_go EmptyString)
              (nth 18 expconf_go EmptyString) (firstn 14 expconf_go)
              (firstn 3 (skipn 15 expconf_go)) (skipn 19 expconf_go)
              eq_refl eq_refl eq_refl) as (Hok & _ & Hnf & _).
  split; [rewrite (Hok eq_refl); reflexivity | exact Hnf].
Defined.

(** ** Union common members *)

Lemma dict_lookup_key (m : list (string * string)) (f t : string) :
  dict_lookup m f = Some t -> f ∈ map fst m.
Proof.
  induction m as [|[k v] m IH]; cbn [dict_lookup map fst]; [discriminate|].
  destruct (String.eqb_spec f k) as [->|]; intros H; [left|right; auto].
Qed.

Lemma dict_has_key (m : list (string * string)) (f : string) :
  f ∈ map fst m -> dict_has m f = true.
Proof.
  unfold dict_has. induction m as [|[k v] m IH]; cbn [dict_lookup map fst].
  - intros H. by apply elem_of_nil in H.
  - destruct (String.eqb_spec f k); [done|]. intros H.
    apply elem_of_cons in H as [H|H]; [congruence|auto].
Qed.

Lemma dict_has_lookup (m : list (string * string)) (f : string) :
  dict_has m f = true -> exists t, dict_lookup m f = Some t.
Proof. unfold dict_has. destruct (dict_lookup m f); [eauto|discriminate]. Qed.

Lemma dict_set_keys (m : list (string * string)) (k v x : string) :
  x ∈ map fst (dict_set m k v) -> x ∈ map fst m \/ x = k.
Proof.
  induction m as [|[k' v'] m IH]; cbn [dict_set map fst].
  - intros H. apply list_elem_of_singleton in H. by right.
  - destruct (String.eqb k k'); cbn [map fst]; intros H;
      apply elem_of_cons in H as [->|H]; try (left; by left).
    + left; by right.
    + destruct (IH H); [left; by right|by right].
Qed.

Lemma dict_set_nodup (m : list (string * string)) (k v : string) :
  NoDup (map fst m) -> NoDup (map fst (dict_set m k v)).
Proof.
  induction m as [|[k' v'] m IH]; cbn [dict_set map fst]; intros Hnd.
  - apply NoDup_singleton.
  - apply NoDup_cons in Hnd as [Hk' Hnd].
    destruct (String.eqb_spec k k') as [->|Hne]; cbn [map fst]; apply NoDup_cons; split; auto.
    intros Hin. destruct (dict_set_keys m k v k' Hin); auto.
Qed.

Lemma members_loop_nodup (sch : Schema) (spec : list FieldSpec) (acc m : list (string * string)) :
  NoDup (map fst acc) -> members_loop sch spec acc = Ok m -> NoDup (map fst m).
Proof.
  revert acc. induction spec as [|[[f t] g] spec IH]; intros acc Hnd H;
    cbn [members_loop] in H; res_simpl.
  - injection H as <-. exact Hnd.
  - destruct (get_defaulted_type sch g t) as [[[t' d] r]|]; res_simpl; [|discriminate].
    eapply IH; [|exact H]. by apply dict_set_nodup.
Qed.

Section UnionMembers.

Variable json_loads : string -> option json.
Variable listdir : string -> option (list (string * string)).
Variable file : list string.
Variable package : string.

Lemma per_struct_loop_ok (uts : list string) (per : list (list (string * string))) :
  per_struct_loop json_loads listdir file package uts = Ok per ->
  Forall2 (fun v m => exists sch spec,
             find_schema json_loads listdir package v = Ok sch /\
             find_struct file v = Ok (spec, []) /\
             members_loop sch spec [] = Ok m) uts per.
Proof.
  revert per. induction uts as [|v uts IH]; intros per H; cbn [per_struct_loop] in H.
  - injection H as <-. constructor.
  - res_simpl. destruct (find_schema json_loads listdir package v) as [sch|] eqn:Hs;
      res_simpl; [|discriminate].
    destruct (find_struct file v) as [[spec u]|] eqn:Hf; res_simpl; [|discriminate].
    destruct (bool_decide (u <> [])) eqn:Hu; [discriminate|].
    apply bool_decide_eq_false in Hu. apply dec_stable in Hu. subst u.
    destruct (members_loop sch spec []) as [m|] eqn:Hm; res_simpl; [|discriminate].
    destruct (per_struct_loop json_loads listdir file package uts) as [more|];
      res_simpl; [|discriminate].
    injection H as <-. constructor; [by exists sch, spec|by apply IH].
Qed.

Lemma per_struct_loop_nested (uts : list string) (v : string) (sch : Schema)
    (spec : list FieldSpec) (u : list UnionSpec) :
  v ∈ uts -> find_schema json_loads listdir package v = Ok sch ->
  find_struct file v = Ok (spec, u) -> u <> [] ->
  is_err (per_struct_loop json_loads listdir file package uts) = true.
Proof.
  intros Hv Hs Hf Hu. induction uts as [|w uts IH]; [by apply elem_of_nil in Hv|].
  cbn [per_struct_loop]. res_simpl.
  apply elem_of_cons in Hv as [->|Hv].
  - rewrite Hs. res_simpl. rewrite Hf. res_simpl.
    by rewrite bool_decide_eq_true_2 by exact Hu.
  - destruct (find_schema json_loads listdir package w) as [sch'|]; res_simpl; [|done].
    destruct (find_struct file w) as [[spec' u']|]; res_simpl; [|done].
    destruct (bool_decide (u' <> [])); [done|].
    destruct (members_loop sch' spec' []); res_simpl; [|done].
    specialize (IH Hv).
    destruct (per_struct_loop json_loads listdir file package uts); res_simpl; done.
Qed.

End UnionMembers.

Lemma check_types_ok (per : list (list (string * string))) (uts fields : list string) (u : unit) :
  check_types per uts fields = Ok u ->
  forall f, f ∈ fields -> length (field_types per f) = 1%nat.
Proof.
  induction fields as [|g fields IH]; cbn [check_types]; intros H f Hf.
  - by apply elem_of_nil in Hf.
  - destruct (Nat.eqb_spec (length (field_types per g)) 1) as [E|E]; cbn [negb] in H;
      [|discriminate].
    apply elem_of_cons in Hf as [->|Hf]; auto.
Qed.

Lemma check_types_err (per : list (list (string * string))) (uts fields : list string) (f0 : string) :
  f0 ∈ fields -> length (field_types per f0) <> 1%nat ->
  exists f, f ∈ fields /\ length (field_types per f) <> 1%nat /\
    check_types per uts fields = Err (ErrMultipleTypes f (field_types per f) uts).
Proof.
  induction fields as [|g fields IH]; intros Hf0 H0; [by apply elem_of_nil in Hf0|].
  cbn [check_types].
  destruct (Nat.eqb_spec (length (field_types per g)) 1) as [E|E]; cbn [negb].
  - apply elem_of_cons in Hf0 as [->|Hf0]; [done|].
    destruct (IH Hf0 H0) as (f & Hf & Hl & Hc). exists f. split; [by right|auto].
  - exists g. split; [by left|auto].
Qed.

Lemma field_types_elem (per : list (list (string * string))) (f t : string) :
  t ∈ field_types per f <-> exists m, m ∈ per /\ default EmptyString (dict_lookup m f) = t.
Proof.
  unfold field_types. rewrite elem_of_remove_dups, list_elem_of_In, in_map_iff.
  split; intros (m & Hm & Hin); exists m; split; auto; by apply list_elem_of_In.
Qed.

Lemma length_one_eq {A} (l : list A) (x y : A) :
  length l = 1%nat -> x ∈ l -> y ∈ l -> x = y.
Proof.
  destruct l as [|a [|b l]]; cbn [length]; intros H Hx Hy; try lia.
  apply list_elem_of_singleton in Hx, Hy. congruence.
Qed.

Lemma strongly_sorted_names (l : list (string * string)) :
  StronglySorted pair_le l -> NoDup (map fst l) ->
  StronglySorted (fun p q => str_lt p.1 q.1 = true) l.
Proof.
  induction 1 as [|p l Hs IH Hall]; cbn [map]; intros Hnd; constructor.
  - apply IH. by apply NoDup_cons in Hnd as [_ ?].
  - apply NoDup_cons in Hnd as [Hp _]. rewrite Forall_forall in Hall |- *.
    intros q Hq. destruct (Hall q Hq) as [?|[Heq _]]; [done|].
    exfalso. apply Hp. rewrite Heq. apply list_elem_of_In, in_map_iff. exists q. split; [done|by apply list_elem_of_In].
Qed.

(** The value [get_union_common_members] builds from the variant maps. *)
Lemma common_members_result (m0 : list (string * string)) (ms : list (list (string * string)))
    (uts : list string) (u : unit) :
  let cf := filter (fun f => forallb (fun m => dict_has m f) ms = true) (map fst m0) in
  NoDup (map fst m0) ->
  check_types (m0 :: ms) uts cf = Ok u ->
  let res := merge_sort pair_le (map (fun f => (f, default EmptyString (dict_lookup m0 f))) cf) in
  StronglySorted (fun p q => str_lt p.1 q.1 = true) res /\
  forall f t, (f, t) ∈ res <-> forall m, m ∈ m0 :: ms -> dict_lookup m f = Some t.
Proof.
  intros cf Hnd Hc res.
  assert (Hperm : Permutation res (map (fun f => (f, default EmptyString (dict_lookup m0 f))) cf))
    by apply merge_sort_Permutation.
  assert (Hcf : forall f, f ∈ cf <-> f ∈ map fst m0 /\ forall m, m ∈ ms -> dict_has m f = true).
  { intros f. unfold cf. rewrite list_elem_of_filter, forallb_forall.
    setoid_rewrite list_elem_of_In. tauto. }
  split.
  - apply strongly_sorted_names.
    + apply Sorted_StronglySorted; [apply _|apply Sorted_merge_sort; apply _].
    + rewrite Hperm, map_map. cbn [fst]. rewrite map_id.
      apply NoDup_filter, Hnd.
  - intros f t. rewrite Hperm, list_elem_of_In, in_map_iff. split.
    + intros (g & Heq & Hg). injection Heq as -> <-.
      apply list_elem_of_In, Hcf in Hg as [Hk Hall].
      destruct (dict_has_lookup m0 f (dict_has_key m0 f Hk)) as [t0 Ht0]. rewrite Ht0.
      assert (Hf : f ∈ cf) by (apply Hcf; auto).
      pose proof (check_types_ok _ _ _ _ Hc f Hf) as Hlen.
      intros m Hm. apply elem_of_cons in Hm as [->|Hm]; [exact Ht0|].
      destruct (dict_has_lookup m f (Hall m Hm)) as [tm Htm]. rewrite Htm.
      f_equal. apply (length_one_eq _ _ _ Hlen); apply field_types_elem.
      * exists m. split; [by right|by rewrite Htm].
      * exists m0. split; [by left|by rewrite Ht0].
    + intros Hall. exists f. assert (H0 := Hall m0 ltac:(by left)). rewrite H0.
      split; [done|]. apply list_elem_of_In, Hcf. split; [by eapply dict_lookup_key|].
      intros m Hm. unfold dict_has. by rewrite (Hall m ltac:(by right)).
Qed.

Lemma check_types_all_ok (per : list (list (string * string))) (uts fields : list string) :
  (forall f, f ∈ fields -> length (field_types per f) = 1%nat) ->
  check_types per uts fields = Ok ().
Proof.
  induction fields as [|g fields IH]; cbn [check_types]; intros H; [done|].
  rewrite (H g ltac:(by left)). cbn [Nat.eqb negb]. apply IH. intros f Hf. apply H. by right.
Qed.

Lemma common_fields_elem (m0 : list (string * string)) (ms : list (list (string * string)))
    (f : string) :
  f ∈ filter (fun f => forallb (fun m => dict_has m f) ms = true) (map fst m0) <->
  forall m, m ∈ m0 :: ms -> dict_has m f = true.
Proof.
  rewrite list_elem_of_filter, forallb_forall. split.
  - intros [Hall Hk] m Hm. apply elem_of_cons in Hm as [->|Hm].
    + by apply dict_has_key.
    + apply Hall, list_elem_of_In, Hm.
  - intros Hall. split.
    + intros m Hm. apply Hall. right. by apply list_elem_of_In.
    + destruct (dict_has_lookup m0 f (Hall m0 ltac:(by left))) as [t Ht].
      by eapply dict_lookup_key.
Qed.

Lemma per_struct_loop_nodup (json_loads : string -> option json)
    (listdir : string -> option (list (string * string))) (file : list string)
    (package : string) (uts : list string) (per : list (list (string * string))) :
  per_struct_loop json_loads listdir file package uts = Ok per ->
  Forall (fun m => NoDup (map fst m)) per.
Proof.
  intros H. apply per_struct_loop_ok in H.
  induction H as [|v m uts per (sch & spec & _ & _ & Hm) _ IH]; constructor; [|exact IH].
  exact (members_loop_nodup sch spec [] m NoDup_nil_2 Hm).
Qed.

(** Any successful result of [get_union_common_members] is sorted by field
    name, with no name repeated, and holds the fields every variant agrees on. *)
Lemma get_union_common_members_ok_inv (json_loads : string -> option json)
    (listdir : string -> option (list (string * string))) (file : list string)
    (package : string) (uts : list string) (res : list (string * string)) :
  get_union_common_members json_loads listdir file package uts = Ok res ->
  exists per, per_struct_loop json_loads listdir file package uts = Ok per /\ per <> [] /\
    StronglySorted (fun p q => str_lt p.1 q.1 = true) res /\
    forall f t, (f, t) ∈ res <-> forall m, m ∈ per -> dict_lookup m f = Some t.
Proof.
  unfold get_union_common_members. res_simpl.
  destruct (per_struct_loop json_loads listdir file package uts) as [per|] eqn:Hp;
    res_simpl; [|discriminate].
  destruct per as [|m0 ms]; [discriminate|].
  destruct (check_types _ _ _) as [u|] eqn:Hc; res_simpl; [|discriminate].
  intros H. injection H as <-. exists (m0 :: ms). split; [done|]. split; [done|].
  apply per_struct_loop_nodup in Hp. apply Forall_cons in Hp as [Hnd _].
  exact (common_members_result m0 ms uts u Hnd Hc).
Qed.

(** C4: for a non-empty list of union variants, [get_union_common_members]
    resolves every variant's schema and struct (a variant with union fields
    of its own makes it fail, and so does any failed resolution); the maps it
    builds are the variants' [members_loop] maps. When every field present in
    all variants has one type across them, the result is the list of those
    fields with their agreed type, strictly sorted by field name; otherwise
    it fails on a shared field with more than one type, with the set of the
    types observed for it and the list of variants. *)
Theorem C4_union_common_members (json_loads : string -> option json)
    (listdir : string -> option (list (string * string))) (file : list string)
    (package : string) (uts : list string) (Hne : uts <> []) :
  (forall per, per_struct_loop json_loads listdir file package uts = Ok per ->
     Forall2 (fun v m => exists sch spec,
                find_schema json_loads listdir package v = Ok sch /\
                find_struct file v = Ok (spec, []) /\
                members_loop sch spec [] = Ok m) uts per) /\
  (forall e, per_struct_loop json_loads listdir file package uts = Err e ->
     get_union_common_members json_loads listdir file package uts = Err e) /\
  (forall v sch spec u, v ∈ uts -> find_schema json_loads listdir package v = Ok sch ->
     find_struct file v = Ok (spec, u) -> u <> [] ->
     is_err (get_union_common_members json_loads listdir file package uts) = true) /\
  (forall per, per_struct_loop json_loads listdir file package uts = Ok per ->
     (forall f, (forall m, m ∈ per -> dict_has m f = true) -> length (field_types per f) = 1%nat) ->
     exists res, get_union_common_members json_loads listdir file package uts = Ok res /\
       StronglySorted (fun p q => str_lt p.1 q.1 = true) res /\
       forall f t, (f, t) ∈ res <-> forall m, m ∈ per -> dict_lookup m f = Some t) /\
  (forall per f0, per_struct_loop json_loads listdir file package uts = Ok per ->
     (forall m, m ∈ per -> dict_has m f0 = true) -> length (field_types per f0) <> 1%nat ->
     exists f, (forall m, m ∈ per -> dict_has m f = true) /\
       (forall t, t ∈ field_types per f <-> exists m, m ∈ per /\ dict_lookup m f = Some t) /\
       (2 <= length (field_types per f))%nat /\
       get_union_common_members json_loads listdir file package uts
       = Err (ErrMultipleTypes f (field_types per f) uts)).
Proof.
  assert (Hcons : forall per, per_struct_loop json_loads listdir file package uts = Ok per ->
                  exists m0 ms, per = m0 :: ms).
  { intros per Hp. apply per_struct_loop_ok in Hp.
    destruct Hp as [|v m uts' per' _ _]; [done|eauto]. }
  split; [apply per_struct_loop_ok|]. split; [|split; [|split]].
  - intros e He. unfold get_union_common_members. res_simpl. by rewrite He.
  - intros v sch spec u Hv Hs Hf Hu.
    pose proof (per_struct_loop_nested json_loads listdir file package uts v sch spec u
                  Hv Hs Hf Hu) as Herr.
    unfold get_union_common_members. res_simpl.
    by destruct (per_struct_loop json_loads listdir file package uts).
  - intros per Hp Hlen. destruct (Hcons per Hp) as (m0 & ms & ->).
    pose proof (per_struct_loop_nodup _ _ _ _ _ _ Hp) as Hnd.
    apply Forall_cons in Hnd as [Hnd _].
    assert (Hc : check_types (m0 :: ms) uts
                   (filter (fun f => forallb (fun m => dict_has m f) ms = true) (map fst m0))
                 = Ok ()).
    { apply check_types_all_ok. intros f Hf. apply Hlen. by apply common_fields_elem. }
    destruct (common_members_result m0 ms uts () Hnd Hc) as [Hs Hin].
    eexists. split; [|split; [exact Hs|exact Hin]].
    unfold get_union_common_members. res_simpl. rewrite Hp. res_simpl. rewrite Hc.
    reflexivity.
  - intros per f0 Hp Hall0 Hlen0. destruct (Hcons per Hp) as (m0 & ms & ->).
    apply common_fields_elem in Hall0.
    destruct (check_types_err (m0 :: ms) uts _ f0 Hall0 Hlen0) as (f & Hf & Hlen & Hc).
    specialize (proj1 (common_fields_elem m0 ms f) Hf) as Hf'. clear Hf. rename Hf' into Hf.
    exists f. split; [exact Hf|]. split; [|split].
    + intros t. rewrite field_types_elem. split.
      * intros (m & Hm & Ht). exists m. split; [done|].
        destruct (dict_has_lookup m f (Hf m Hm)) as [t' Ht']. rewrite Ht' in Ht. by subst.
      * intros (m & Hm & Ht). exists m. split; [done|]. by rewrite Ht.
    + destruct (field_types (m0 :: ms) f) as [|t0 l] eqn:Ef.
      * exfalso. assert (Hin : default EmptyString (dict_lookup m0 f) ∈ field_types (m0 :: ms) f)
          by (apply field_types_elem; exists m0; split; [by left|done]).
        rewrite Ef in Hin. by apply elem_of_nil in Hin.
      * destruct l; cbn [length] in Hlen |- *; lia.
    + unfold get_union_common_members. res_simpl. rewrite Hp. res_simpl. by rewrite Hc.
Qed.

Lemma C4_union_common_members_witness :
  is_err (get_union_common_members fixture_loads fixture_listdir expconf_go "expconf"
            ["AlphaV1"; "UnionV1"]) = true.
Proof.
  destruct (C4_union_common_members fixture_loads fixture_listdir expconf_go "expconf"
              ["AlphaV1"; "UnionV1"] ltac:(discriminate)) as (_ & _ & Hnested & _ & _).
  apply (Hnested "UnionV1" union_v1_schema [] union_v1_spec).
  - right. left.
  - reflexivity.
  - reflexivity.
  - discriminate.
Defined.

(** ** Reading the schema files *)

Lemma new_Schema_url (json_loads : string -> option json) (u t : string) (s : Schema) :
  new_Schema json_loads u t = Ok s -> url s = u.
Proof.
  unfold new_Schema. destruct (json_loads t) as [j|]; [|discriminate]. res_simpl.
  destruct (py_getitem j "title") as [[]|]; res_simpl; try discriminate.
  destruct (camel_to_snake _); res_simpl; [|discriminate].
  intros H. by injection H as <-.
Qed.

Lemma load_schema_file_url (json_loads : string -> option json) (rel : string -> string)
    (read_file : string -> option string) (f : string) (s : Schema) :
  load_schema_file json_loads rel read_file f = Ok s -> url s = URLBASE +++ "/" +++ rel f.
Proof.
  unfold load_schema_file. destruct (read_file f); [|discriminate]. apply new_Schema_url.
Qed.

Lemma read_loop_cons (json_loads : string -> option json) (rel : string -> string)
    (read_file : string -> option string) (f : string) (l : list string) :
  read_loop json_loads rel read_file (f :: l) =
  (sch ← load_schema_file json_loads rel read_file f;
   more ← read_loop json_loads rel read_file l;
   Ok (sch :: more)).
Proof. cbn [read_loop]. unfold load_schema_file. by destruct (read_file f). Qed.

Lemma read_loop_forall2 (json_loads : string -> option json) (rel : string -> string)
    (read_file : string -> option string) (l : list string) (s : list Schema) :
  read_loop json_loads rel read_file l = Ok s <->
  Forall2 (fun f sch => load_schema_file json_loads rel read_file f = Ok sch) l s.
Proof.
  revert s. induction l as [|f l IH]; intros s.
  - cbn [read_loop]. split; [intros H; injection H as <-; constructor|intros H; inversion H; done].
  - rewrite read_loop_cons. res_simpl.
    destruct (load_schema_file json_loads rel read_file f) as [sch|e] eqn:Hs; res_simpl.
    + destruct (read_loop json_loads rel read_file l) as [more|e] eqn:Hl; res_simpl.
      * split.
        -- intros H. injection H as <-. constructor; [done|]. by apply IH.
        -- intros H. inversion H as [|? y ? ys Hy Hys]; subst.
           rewrite Hs in Hy. injection Hy as ->. apply IH in Hys. congruence.
      * split; [discriminate|]. intros H. inversion H as [|? y ? ys Hy Hys]; subst.
        apply IH in Hys. discriminate.
    + split; [discriminate|]. intros H. inversion H; congruence.
Qed.

Lemma Forall2_permutation {A B} (P : A -> B -> Prop) (l1 l2 : list A) (s1 : list B) :
  l1 ≡ₚ l2 -> Forall2 P l1 s1 -> exists s2, Forall2 P l2 s2 /\ s1 ≡ₚ s2.
Proof.
  intros Hp. revert s1. induction Hp as [|x l1 l2 Hp IH|x y l|l1 l2 l3 _ IH1 _ IH2];
    intros s1 H.
  - exists []. inversion H. auto.
  - inversion H as [|? b ? s1' Hb Hs1]; subst.
    destruct (IH s1' Hs1) as (s2 & H2 & Hp2). exists (b :: s2). split; [by constructor|].
    by apply perm_skip.
  - inversion H as [|? b ? s1' Hb Hs1]; subst. inversion Hs1 as [|? a ? s1'' Ha Hs2]; subst.
    exists (a :: b :: s1''). split; [by repeat constructor|]. apply perm_swap.
  - destruct (IH1 s1 H) as (s2 & H2 & Hp2). destruct (IH2 s2 H2) as (s3 & H3 & Hp3).
    exists s3. split; [done|]. by trans s2.
Qed.

Lemma Forall2_elem_r {A B} (P : A -> B -> Prop) (l : list A) (s : list B) (y : B) :
  Forall2 P l s -> y ∈ s -> exists x, P x y.
Proof.
  induction 1 as [|x y' l s Hxy _ IH]; intros Hy; [by apply elem_of_nil in Hy|].
  apply elem_of_cons in Hy as [->|Hy]; eauto.
Qed.

Lemma append_cancel_l (s a b : string) : s +++ a = s +++ b -> a = b.
Proof. induction s as [|c s IH]; [done|]. cbn. intros H. injection H. exact IH. Qed.

Lemma str_le_antisym (a b : string) : str_le a b -> str_le b a -> a = b.
Proof.
  rewrite !str_le_iff, (String.compare_antisym b a). intros H1 H2.
  apply String.compare_eq_iff. destruct (String.compare a b); cbn in *; congruence.
Qed.

(** Loading a permutation of the files gives the same sorted list, provided
    files with the same relative path have the same contents. *)
Lemma read_schemas_permutation (json_loads : string -> option json) (rel : string -> string)
    (read_file : string -> option string) (l1 l2 : list string) (s : list Schema) :
  (forall p q, rel p = rel q -> read_file p = read_file q) ->
  l1 ≡ₚ l2 ->
  read_schemas json_loads rel read_file l1 = Ok s ->
  read_schemas json_loads rel read_file l2 = Ok s.
Proof.
  intros Hrel Hp. unfold read_schemas. res_simpl.
  destruct (read_loop json_loads rel read_file l1) as [r1|] eqn:H1; res_simpl; [|discriminate].
  intros H. injection H as <-. apply read_loop_forall2 in H1.
  destruct (Forall2_permutation _ _ _ _ Hp H1) as (r2 & H2 & Hr).
  pose proof H2 as H2'. apply read_loop_forall2 in H2'. rewrite H2'. res_simpl. f_equal.
  apply (Sorted_unique_strong schema_url_le);
    [| apply Sorted_merge_sort; apply _ | apply Sorted_merge_sort; apply _ |].
  - intros x1 x2 Hx1 Hx2 H12 H21.
    rewrite merge_sort_Permutation in Hx1, Hx2.
    destruct (Forall2_elem_r _ _ _ _ H2 Hx1) as [f1 Hf1].
    destruct (Forall2_elem_r _ _ _ _ H1 Hx2) as [f2 Hf2].
    assert (Hu : url x1 = url x2) by exact (str_le_antisym _ _ H12 H21).
    rewrite (load_schema_file_url _ _ _ _ _ Hf1), (load_schema_file_url _ _ _ _ _ Hf2) in Hu.
    apply append_cancel_l, append_cancel_l in Hu.
    unfold load_schema_file in Hf1, Hf2. rewrite Hu, (Hrel f1 f2 Hu) in Hf1. congruence.
  - by rewrite !merge_sort_Permutation.
Qed.

(** C5: when files with the same path relative to the schemas directory have
    the same contents (so a set of files has one text per URL), loading a
    permutation of the files fails exactly when loading the original does,
    and otherwise gives the same schema list, hence the same aggregate Go
    module. The loaded list is sorted by URL, and every result of
    [get_union_common_members] is strictly sorted by field name. *)
Theorem C5_reordering_invariant (json_loads : string -> option json) (rel : string -> string)
    (read_file : string -> option string) (l1 l2 : list string)
    (Hrel : forall p q, rel p = rel q -> read_file p = read_file q)
    (Hp : l1 ≡ₚ l2) :
  is_err (read_schemas json_loads rel read_file l1)
  = is_err (read_schemas json_loads rel read_file l2) /\
  (forall s, read_schemas json_loads rel read_file l1 = Ok s ->
             read_schemas json_loads rel read_file l2 = Ok s) /\
  (forall s1 s2, read_schemas json_loads rel read_file l1 = Ok s1 ->
                 read_schemas json_loads rel read_file l2 = Ok s2 ->
                 gen_go_schemas_package s1 = gen_go_schemas_package s2) /\
  (forall s, read_schemas json_loads rel read_file l1 = Ok s -> Sorted schema_url_le s) /\
  (forall listdir file package uts res,
     get_union_common_members json_loads listdir file package uts = Ok res ->
     StronglySorted (fun p q => str_lt p.1 q.1 = true) res).
Proof.
  pose proof (read_schemas_permutation json_loads rel read_file l1 l2) as H12.
  pose proof (read_schemas_permutation json_loads rel read_file l2 l1) as H21.
  split; [|split; [|split; [|split]]].
  - destruct (read_schemas json_loads rel read_file l1) as [s|] eqn:E1.
    + by rewrite (H12 s Hrel Hp eq_refl).
    + destruct (read_schemas json_loads rel read_file l2) as [s|] eqn:E2; [|done].
      discriminate (H21 s Hrel (symmetry Hp) eq_refl).
  - intros s. exact (H12 s Hrel Hp).
  - intros s1 s2 E1 E2. rewrite (H12 s1 Hrel Hp E1) in E2. by injection E2 as ->.
  - intros s. unfold read_schemas. res_simpl.
    destruct (read_loop json_loads rel read_file l1); res_simpl; [|discriminate].
    intros H. injection H as <-. apply Sorted_merge_sort. apply _.
  - intros listdir file package uts res H.
    by destruct (get_union_common_members_ok_inv _ _ _ _ _ _ H) as (_ & _ & _ & ? & _).
Qed.

Lemma C5_reordering_invariant_witness :
  exists s,
    read_schemas fixture_loads (fun p => p) fixture_read_file
      ["expconf/v1/foo.json"; "expconf/v1/alpha.json"]%string = Ok s /\
    read_schemas fixture_loads (fun p => p) fixture_read_file
      ["expconf/v1/alpha.json"; "expconf/v1/foo.json"]%string = Ok s.
Proof.
  destruct (C5_reordering_invariant fixture_loads (fun p => p) fixture_read_file
              ["expconf/v1/foo.json"; "expconf/v1/alpha.json"]%string
              ["expconf/v1/alpha.json"; "expconf/v1/foo.json"]%string
              (fun p q (E : p = q) => f_equal fixture_read_file E)
              (perm_swap _ _ _)) as (_ & Hok & _).
  eexists. split; [reflexivity|]. apply Hok. reflexivity.
Defined.

(** * Further properties of the generator *)

Lemma ok_inj {A} (a b : A) : Ok a = Ok b -> a = b.
Proof. by intros [= ->]. Qed.

(** ** [camel_to_snake] *)

Lemma lower_c_not_upper (c : ascii) : is_upper_c (lower_c c) = false.
Proof.
  unfold lower_c. destruct (is_upper_c c) eqn:E; [|exact E].
  unfold is_upper_c in *. apply andb_prop in E as [E1 E2].
  apply Nat.leb_le in E1, E2. pose proof (nat_ascii_bounded c).
  rewrite nat_ascii_embedding by lia.
  apply andb_false_iff. right. apply Nat.leb_gt. lia.
Qed.

Lemma camel_loop_cons3 (c0 c1 c2 : ascii) (r : list ascii) :
  camel_loop (c0 :: c1 :: c2 :: r)
  = (if is_lower_c c0 && is_upper_c c1 then ["_"%char] else [])
    ++ (if is_upper_c c0 && is_upper_c c1 && is_lower_c c2 then ["_"%char] else [])
    ++ [lower_c c1] ++ camel_loop (c1 :: c2 :: r).
Proof. reflexivity. Qed.

Lemma camel_loop_not_upper (l : list ascii) : Forall (fun c => is_upper_c c = false) (camel_loop l).
Proof.
  induction l as [|c0 l IH]; [constructor|].
  destruct l as [|c1 [|c2 r]]; try constructor. rewrite camel_loop_cons3.
  repeat apply Forall_app_2; try (destruct (_ && _); repeat constructor).
  - constructor; [apply lower_c_not_upper|constructor].
  - exact IH.
Qed.


(** [camel_to_snake] never leaves an upper-case ASCII letter in its result. *)
Theorem camel_to_snake_lowercase (name out : string) :
  camel_to_snake name = Ok out ->
  Forall (fun c => is_upper_c c = false) (list_ascii_of_string out).
Proof.
  unfold camel_to_snake. destruct (list_ascii_of_string name) as [|c t]; [discriminate|].
  intros H. apply ok_inj in H. subst out. rewrite list_ascii_of_string_of_list_ascii.
  apply Forall_app_2; [constructor; [apply lower_c_not_upper|constructor]|].
  apply Forall_app_2; [apply camel_loop_not_upper|].
  constructor; [apply lower_c_not_upper|constructor].
Qed.

Lemma camel_to_snake_lowercase_witness :
  camel_to_snake "HDFSConfigV0" = Ok "hdfs_config_v0"%string /\
  Forall (fun c => is_upper_c c = false) (list_ascii_of_string "hdfs_config_v0").
Proof.
  split; [reflexivity|]. apply (camel_to_snake_lowercase "HDFSConfigV0"). reflexivity.
Defined.



(** ** Schema naming and [find_schema] *)

Lemma list_ascii_of_string_app (a b : string) :
  list_ascii_of_string (a +++ b) = list_ascii_of_string a ++ list_ascii_of_string b.
Proof. induction a as [|c a IH]; [done|]. change (String c a +++ b) with (String c (a +++ b)). cbn [list_ascii_of_string]. by rewrite IH. Qed.

Lemma str_app_assoc (a b c : string) : a +++ (b +++ c) = (a +++ b) +++ c.
Proof.
  induction a as [|x a IH]; [done|].
  change (String x (a +++ (b +++ c)) = String x ((a +++ b) +++ c)). by rewrite IH.
Qed.

Lemma str_app_nil_r (s : string) : s +++ EmptyString = s.
Proof.
  induction s as [|x s IH]; [done|].
  change (String x (s +++ EmptyString) = String x s). by rewrite IH.
Qed.

Lemma take_while_app_stop {A} (p : A -> bool) (l1 l2 : list A) (y : A) :
  Forall (fun x => p x = true) l1 -> p y = false -> take_while p (l1 ++ y :: l2) = l1.
Proof.
  induction 1 as [|x l1 Hx _ IH]; intros Hy; cbn; [by rewrite Hy|by rewrite Hx, IH].
Qed.

Lemma drop_while_app_stop {A} (p : A -> bool) (l1 l2 : list A) (y : A) :
  Forall (fun x => p x = true) l1 -> p y = false -> drop_while p (l1 ++ y :: l2) = y :: l2.
Proof.
  induction 1 as [|x l1 Hx _ IH]; intros Hy; cbn; [by rewrite Hy|by rewrite Hx, IH].
Qed.

Definition no_slash (s : string) : Prop :=
  Forall (fun c => c <> slash) (list_ascii_of_string s).

Lemma split_last_slash_app (p f : list ascii) :
  Forall (fun c => c <> slash) f ->
  split_last_slash (p ++ slash :: f) = (p ++ [slash], f).
Proof.
  intros Hf. unfold split_last_slash.
  rewrite rev_app_distr. cbn [rev]. rewrite <-app_assoc. cbn [app].
  assert (Hn : Forall (fun c => negb (bool_decide (c = slash)) = true) (rev f)).
  { apply Forall_rev. eapply Forall_impl; [exact Hf|].
    intros c Hc. by rewrite bool_decide_eq_false_2. }
  rewrite (take_while_app_stop _ _ _ _ Hn), (drop_while_app_stop _ _ _ _ Hn)
    by (by rewrite bool_decide_eq_true_2).
  cbn [rev]. by rewrite !rev_involutive.
Qed.

Lemma basename_app_slash (a v : string) : no_slash v -> basename (a +++ "/" +++ v) = v.
Proof.
  intros Hv. unfold basename. rewrite !list_ascii_of_string_app.
  change (list_ascii_of_string "/") with [slash]. cbn [app].
  rewrite split_last_slash_app by exact Hv. apply string_of_list_ascii_of_string.
Qed.

(** [Schema.version] of a URL built by [find_schema] is the version
    directory, when that directory and the file name are plain names. *)
Lemma version_schema_url (package ver file : string) :
  ver <> EmptyString -> no_slash ver -> no_slash file ->
  version (schema_url package ver file) = ver.
Proof.
  intros Hne Hv Hf. unfold version, schema_url, dirname, basename.
  set (q := URLBASE +++ "/" +++ package +++ "/" +++ ver).
  assert (Hq : URLBASE +++ "/" +++ package +++ "/" +++ ver +++ "/" +++ file
               = q +++ "/" +++ file).
  { unfold q. rewrite !str_app_assoc. reflexivity. }
  rewrite Hq, !list_ascii_of_string_app. cbn [list_ascii_of_string app].
  rewrite split_last_slash_app by exact Hf. cbn [fst].
  assert (Hlast : exists r c, list_ascii_of_string q = r ++ [c] /\ c <> slash).
  { unfold q. rewrite !list_ascii_of_string_app.
    destruct (list_ascii_of_string ver) as [|a l] eqn:Ev.
    - destruct ver; [done|discriminate].
    - destruct (exists_last (l := a :: l) ltac:(discriminate)) as (r & c & Hrc).
      unfold no_slash in Hv. rewrite Ev, Hrc in Hv. apply Forall_app in Hv as [_ Hc]. apply Forall_cons in Hc as [Hc _].
      eexists _, c. split; [|exact Hc]. rewrite Hrc. by rewrite !app_assoc. }
  destruct Hlast as (r & c & Hqr & Hc).
  rewrite bool_decide_eq_true_2 by (intros H; by destruct (list_ascii_of_string q)).
  replace (forallb (fun c0 => bool_decide (c0 = slash)) (list_ascii_of_string q ++ [slash]))
    with false.
  2:{ symmetry. apply not_true_iff_false. intros H. apply forallb_forall with (x := "h"%char) in H.
      - by apply bool_decide_eq_true in H.
      - unfold q. rewrite !list_ascii_of_string_app. cbn. left. reflexivity. }
  cbn [negb andb]. unfold rstrip_slash. rewrite rev_app_distr. cbn [rev app].
  cbn [drop_while]. rewrite bool_decide_eq_true_2 by done. rewrite Hqr, rev_app_distr.
  cbn [rev app drop_while]. rewrite bool_decide_eq_false_2 by exact Hc.
  replace (c :: rev r) with (rev (r ++ [c])) by (by rewrite rev_app_distr). rewrite rev_involutive, <-Hqr.
  rewrite string_of_list_ascii_of_string. change (basename q = ver).
  replace q with ((URLBASE +++ "/" +++ package) +++ "/" +++ ver)
    by (unfold q; by rewrite !str_app_assoc).
  by apply basename_app_slash.
Qed.

Lemma camel_to_snake_nonempty (s : string) :
  s <> EmptyString -> exists p, camel_to_snake s = Ok p.
Proof.
  intros Hs. unfold camel_to_snake.
  destruct (list_ascii_of_string s) as [|c l] eqn:E.
  - destruct s; [done|discriminate].
  - by eexists.
Qed.

Lemma app_upper_nonempty (t v : string) : v <> EmptyString -> t +++ upper v <> EmptyString.
Proof. intros Hv. destruct t; [|discriminate]. destruct v; [done|discriminate]. Qed.

(** A schema file [file] in directory [package/ver] whose JSON has the
    title [T] gets the Go name [T ++ upper ver] and, as Python name, the
    snake case of that. *)
Theorem new_Schema_titles (json_loads : string -> option json) (package ver file t T : string)
    (j : json) :
  ver <> EmptyString -> no_slash ver -> no_slash file ->
  json_loads t = Some j -> py_getitem j "title" = Ok (JStr T) ->
  exists p, camel_to_snake (T +++ upper ver) = Ok p /\
    new_Schema json_loads (schema_url package ver file) t
    = Ok (mkSchema (schema_url package ver file) t j (T +++ upper ver) p).
Proof.
  intros Hne Hv Hf Hj HT.
  destruct (camel_to_snake_nonempty (T +++ upper ver) (app_upper_nonempty T ver Hne)) as [p Hp].
  exists p. split; [exact Hp|].
  unfold new_Schema. rewrite Hj, HT. res_simpl.
  rewrite (version_schema_url package ver file Hne Hv Hf), Hp. reflexivity.
Qed.

Lemma new_Schema_titles_witness :
  "v12"%string <> EmptyString /\ no_slash "v12" /\ no_slash "foo.json" /\
  fixture_loads "foo" = Some foo_json /\ py_getitem foo_json "title" = Ok (JStr "Foo") /\
  exists p, camel_to_snake ("Foo" +++ upper "v12") = Ok p /\
    new_Schema fixture_loads (schema_url "expconf" "v12" "foo.json") "foo"
    = Ok (mkSchema (schema_url "expconf" "v12" "foo.json") "foo" foo_json ("Foo" +++ upper "v12") p).
Proof.
  assert (H1 : "v12"%string <> EmptyString) by discriminate.
  assert (H2 : no_slash "v12") by (unfold no_slash; cbn; repeat constructor; discriminate).
  assert (H3 : no_slash "foo.json") by (unfold no_slash; cbn; repeat constructor; discriminate).
  split; [exact H1|]. split; [exact H2|]. split; [exact H3|].
  split; [reflexivity|]. split; [reflexivity|].
  exact (new_Schema_titles fixture_loads "expconf" "v12" "foo.json" "foo" "Foo" foo_json
           H1 H2 H3 eq_refl eq_refl).
Defined.

Section FindSchema.

Variable json_loads : string -> option json.
Variables package ver struct : string.

Definition earlier_entry_ok (e : string * string) : Prop :=
  endswith e.1 ".json" = true ->
  exists s', new_Schema json_loads (schema_url package ver e.1) e.2 = Ok s' /\
             golang_title s' <> struct.

Lemma find_schema_loop_found (entries : list (string * string)) (sch : Schema) :
  find_schema_loop json_loads package ver struct entries = Ok sch ->
  exists pre file c rest, entries = pre ++ (file, c) :: rest /\
    endswith file ".json" = true /\
    new_Schema json_loads (schema_url package ver file) c = Ok sch /\
    golang_title sch = struct /\ Forall earlier_entry_ok pre.
Proof.
  induction entries as [|[f c0] rest IH]; cbn [find_schema_loop]; [discriminate|].
  destruct (endswith f ".json") eqn:Ef; cbn [negb].
  - res_simpl. destruct (new_Schema json_loads (schema_url package ver f) c0) as [s|e] eqn:Es;
      cbn [result_bind]; [|discriminate].
    destruct (String.eqb (golang_title s) struct) eqn:Et; cbn [negb].
    + intros Hok. apply ok_inj in Hok. subst s. apply String.eqb_eq in Et.
      exists [], f, c0, rest. by repeat split.
    + intros Hl. destruct (IH Hl) as (pre & file & c & rest' & -> & H1 & H2 & H3 & H4).
      exists ((f, c0) :: pre), file, c, rest'. repeat split; try done.
      constructor; [|exact H4]. intros _. exists s. split; [exact Es|].
      by apply String.eqb_neq.
  - intros Hl. destruct (IH Hl) as (pre & file & c & rest' & -> & H1 & H2 & H3 & H4).
    exists ((f, c0) :: pre), file, c, rest'. repeat split; try done.
    constructor; [|exact H4]. unfold earlier_entry_ok. cbn. by rewrite Ef.
Qed.

Lemma find_schema_loop_first (pre : list (string * string)) (file c : string)
    (rest : list (string * string)) (sch : Schema) :
  endswith file ".json" = true ->
  new_Schema json_loads (schema_url package ver file) c = Ok sch ->
  golang_title sch = struct -> Forall earlier_entry_ok pre ->
  find_schema_loop json_loads package ver struct (pre ++ (file, c) :: rest) = Ok sch.
Proof.
  intros Hf Hs Ht Hpre. induction Hpre as [|[f c0] pre Hok _ IH]; cbn [app find_schema_loop].
  - rewrite Hf. cbn [negb]. res_simpl. rewrite Hs. cbn [result_bind].
    by rewrite Ht, String.eqb_refl.
  - unfold earlier_entry_ok in Hok. cbn [fst snd] in Hok.
    destruct (endswith f ".json") eqn:Ef; cbn [negb]; [|exact IH].
    destruct (Hok eq_refl) as (s' & Hs' & Ht'). res_simpl. rewrite Hs'. cbn [result_bind].
    apply String.eqb_neq in Ht'. by rewrite Ht'.
Qed.

End FindSchema.

(** [find_schema] on a well-formed type name returns exactly the first
    [.json] entry of the version directory whose schema has that Go name;
    every [.json] entry before it must load (an earlier file that is not
    valid JSON, or has no string title, aborts the search). *)
Theorem find_schema_first_match (json_loads : string -> option json)
    (listdir : string -> option (list (string * string))) (package struct : string)
    (entries : list (string * string)) (sch : Schema) :
  re_match_version (list_ascii_of_string struct) = true ->
  listdir (package +++ "/" +++ lower (last2 struct)) = Some entries ->
  find_schema json_loads listdir package struct = Ok sch <->
  exists pre file c rest, entries = pre ++ (file, c) :: rest /\
    endswith file ".json" = true /\
    new_Schema json_loads (schema_url package (lower (last2 struct)) file) c = Ok sch /\
    golang_title sch = struct /\
    Forall (earlier_entry_ok json_loads package (lower (last2 struct)) struct) pre.
Proof.
  intros Hre Hdir. unfold find_schema. rewrite Hre. cbn [negb]. rewrite Hdir. split.
  - apply find_schema_loop_found.
  - intros (pre & file & c & rest & -> & H1 & H2 & H3 & H4).
    by apply find_schema_loop_first.
Qed.

Lemma find_schema_first_match_witness :
  re_match_version (list_ascii_of_string "AlphaV1") = true /\
  fixture_listdir ("expconf" +++ "/" +++ lower (last2 "AlphaV1"))
  = Some [("foo.json", "foo"); ("union.json", "union"); ("alpha.json", "alpha");
          ("beta.json", "beta"); ("mixed.json", "mixed"); ("README.md", "docs")]%string /\
  forall sch,
  find_schema fixture_loads fixture_listdir "expconf" "AlphaV1" = Ok sch <->
  exists pre file c rest,
    [("foo.json", "foo"); ("union.json", "union"); ("alpha.json", "alpha");
     ("beta.json", "beta"); ("mixed.json", "mixed"); ("README.md", "docs")]%string
    = pre ++ (file, c) :: rest /\
    endswith file ".json" = true /\
    new_Schema fixture_loads (schema_url "expconf" (lower (last2 "AlphaV1")) file) c = Ok sch /\
    golang_title sch = "AlphaV1"%string /\
    Forall (earlier_entry_ok fixture_loads "expconf" (lower (last2 "AlphaV1")) "AlphaV1") pre.
Proof.
  split; [reflexivity|]. split; [reflexivity|]. intros sch.
  exact (find_schema_first_match fixture_loads fixture_listdir "expconf" "AlphaV1" _ sch
           eq_refl eq_refl).
Defined.

Lemma string_length_app (a b : string) : String.length (a +++ b) = String.length a + String.length b.
Proof.
  induction a as [|x a IH]; [done|].
  change (S (String.length (a +++ b)) = S (String.length a + String.length b)). by rewrite IH.
Qed.

Lemma substring_app_length (a b : string) (n : nat) :
  substring (String.length a) n (a +++ b) = substring 0 n b.
Proof.
  induction a as [|x a IH]; [done|].
  change (substring (String.length a) n (a +++ b) = substring 0 n b). exact IH.
Qed.

Lemma last2_app2 (a : string) (x y : ascii) :
  last2 (a +++ String x (String y EmptyString)) = String x (String y EmptyString).
Proof.
  unfold last2. rewrite string_length_app. cbn [String.length].
  replace (2 <=? String.length a + 2)%nat with true by (symmetry; apply Nat.leb_le; lia).
  replace (String.length a + 2 - 2)%nat with (String.length a) by lia.
  rewrite substring_app_length. reflexivity.
Qed.

Lemma lower_c_digit (c : ascii) : is_digit_c c = true -> lower_c c = c.
Proof.
  unfold is_digit_c, lower_c, is_upper_c. intros H.
  apply andb_prop in H as [H1 H2]. apply Nat.leb_le in H1, H2.
  destruct (65 <=? nat_of_ascii c)%nat eqn:E; [|reflexivity].
  apply Nat.leb_le in E. lia.
Qed.

(** For a type name ending in [V] and two digits, [find_schema] reads
    the directory named by the two digits alone (the last two characters
    lower-cased), so the schema it returns always lies in that directory,
    never in [v] followed by the digits. *)
Theorem find_schema_two_digit_version (json_loads : string -> option json)
    (listdir : string -> option (list (string * string))) (package T : string)
    (d1 d2 : ascii) (sch : Schema) :
  is_digit_c d1 = true -> is_digit_c d2 = true ->
  find_schema json_loads listdir package (T +++ String "V" (String d1 (String d2 EmptyString)))
  = Ok sch ->
  exists file, url sch = schema_url package (String d1 (String d2 EmptyString)) file.
Proof.
  intros H1 H2. unfold find_schema.
  destruct (re_match_version _); cbn [negb]; [|discriminate].
  replace (T +++ String "V" (String d1 (String d2 EmptyString)))
    with ((T +++ "V") +++ String d1 (String d2 EmptyString)) by (by rewrite <-str_app_assoc).
  rewrite last2_app2.
  replace (lower (String d1 (String d2 EmptyString))) with (String d1 (String d2 EmptyString))
    by (unfold lower; cbn; by rewrite !lower_c_digit).
  destruct (listdir _) as [entries|]; [|discriminate].
  intros Hl. destruct (find_schema_loop_found json_loads _ _ _ entries sch Hl)
    as (pre & file & c & rest & _ & _ & Hs & _ & _).
  exists file. exact (new_Schema_url json_loads _ _ sch Hs).
Qed.

Lemma find_schema_two_digit_version_witness :
  is_digit_c "1" = true /\ is_digit_c "0" = true /\
  find_schema (fun t => if String.eqb t "x" then Some (titled "FooV") else None)
    (fun d => if String.eqb d "expconf/10" then Some [("x.json", "x")]%string else None)
    "expconf" ("Foo" +++ String "V" (String "1" (String "0" EmptyString)))
  = Ok (mkSchema "http://determined.ai/schemas/expconf/10/x.json" "x" (titled "FooV")
          "FooV10" "foo_v10") /\
  exists file, url (mkSchema "http://determined.ai/schemas/expconf/10/x.json" "x"
                      (titled "FooV") "FooV10" "foo_v10")
               = schema_url "expconf" (String "1" (String "0" EmptyString)) file.
Proof.
  split; [reflexivity|]. split; [reflexivity|]. split; [vm_compute; reflexivity|].
  apply (find_schema_two_digit_version
           (fun t => if String.eqb t "x" then Some (titled "FooV") else None)
           (fun d => if String.eqb d "expconf/10" then Some [("x.json", "x")]%string else None)
           "expconf" "Foo" "1" "0"); [reflexivity|reflexivity|vm_compute; reflexivity].
Defined.

(** ** [next_struct_name] *)




(** ** The line patterns *)

Lemma prefix_app (p s : string) : String.prefix p (p +++ s) = true.
Proof.
  induction p as [|x p IH]; [by destruct s|].
  change (String.prefix (String x p) (String x (p +++ s)) = true). cbn.
  destruct (ascii_dec x x); [exact IH|done].
Qed.

Lemma prefix_inv (p s : string) : String.prefix p s = true -> exists r, s = p +++ r.
Proof.
  revert s. induction p as [|x p IH]; intros s H; [by exists s|].
  destruct s as [|y s]; [discriminate|]. cbn in H.
  destruct (ascii_dec x y) as [->|]; [|discriminate].
  destruct (IH s H) as [r ->]. by exists r.
Qed.

Lemma substring_0_full (s : string) (m : nat) : String.length s <= m -> substring 0 m s = s.
Proof.
  revert m. induction s as [|x s IH]; intros m Hm; [by destruct m|].
  destruct m as [|m]; [cbn in Hm; lia|]. cbn. f_equal. apply IH. cbn in Hm. lia.
Qed.

Lemma substring_after_prefix (p r : string) (m : nat) :
  String.length r <= m -> substring (String.length p) m (p +++ r) = r.
Proof. intros H. rewrite substring_app_length. by apply substring_0_full. Qed.

Lemma take_drop_while {A} (p : A -> bool) (l : list A) : take_while p l ++ drop_while p l = l.
Proof. induction l as [|x l IH]; cbn; [done|]. destruct (p x); cbn; [by rewrite IH|done]. Qed.

Lemma Forall_take_while {A} (p : A -> bool) (l : list A) :
  Forall (fun x => p x = true) (take_while p l).
Proof. induction l as [|x l IH]; cbn; [done|]. destruct (p x) eqn:E; [by constructor|done]. Qed.

Lemma string_of_list_ascii_app (a b : list ascii) :
  string_of_list_ascii (a ++ b) = string_of_list_ascii a +++ string_of_list_ascii b.
Proof.
  induction a as [|x a IH]; [done|].
  change (String x (string_of_list_ascii (a ++ b))
          = String x (string_of_list_ascii a +++ string_of_list_ascii b)). by rewrite IH.
Qed.

Definition no_space (s : string) : Prop :=
  Forall (fun c => is_space_c c = false) (list_ascii_of_string s).

Lemma no_space_take (s : string) (l : list ascii) :
  list_ascii_of_string s = l -> Forall (fun c => negb (is_space_c c) = true) l -> no_space s.
Proof.
  intros <- H. unfold no_space. eapply Forall_impl; [exact H|]. intros c Hc. by apply negb_true_iff.
Qed.

Lemma span_nonspace_app (a b : list ascii) (c : ascii) :
  Forall (fun x => is_space_c x = false) a -> is_space_c c = true ->
  span_nonspace (a ++ c :: b) = (a, c :: b).
Proof.
  intros Ha Hc. unfold span_nonspace.
  assert (Ha' : Forall (fun x => negb (is_space_c x) = true) a)
    by (eapply Forall_impl; [exact Ha|]; intros x ->; done).
  rewrite (take_while_app_stop _ _ _ _ Ha'), (drop_while_app_stop _ _ _ _ Ha')
    by (by rewrite Hc). reflexivity.
Qed.

(** [re.match("type ([\S]+) struct", line)] succeeds with group [name]
    exactly on the lines [type <name> struct...] where [name] is a
    non-empty run of non-space characters. *)
Theorem match_type_struct_iff (line name : string) :
  match_type_struct line = Some name <->
  name <> EmptyString /\ no_space name /\ exists rest, line = "type " +++ name +++ " struct" +++ rest.
Proof.
  unfold match_type_struct. split.
  - destruct (startswith line "type ") eqn:E; [|discriminate].
    destruct (prefix_inv _ _ E) as [r ->].
    change 5 with (String.length "type "). rewrite substring_after_prefix
      by (rewrite !string_length_app; cbn; lia).
    destruct (span_nonspace (list_ascii_of_string r)) as [g r1] eqn:Es.
    destruct (bool_decide (g <> [])) eqn:Eg; cbn [andb]; [|discriminate].
    destruct (startswith (string_of_list_ascii r1) " struct") eqn:Er; [|discriminate].
    intros H. injection H as <-. apply bool_decide_eq_true in Eg.
    unfold span_nonspace in Es. injection Es as Eg' Er'.
    split; [by destruct g|]. split.
    + eapply no_space_take; [apply list_ascii_of_string_of_list_ascii|].
      rewrite <-Eg'. apply Forall_take_while.
    + destruct (prefix_inv _ _ Er) as [rest Hrest]. exists rest.
      rewrite <-Hrest, <-string_of_list_ascii_app, <-Eg', <-Er', take_drop_while.
      by rewrite string_of_list_ascii_of_string.
  - intros (Hne & Hns & rest & ->). unfold startswith. rewrite prefix_app.
    change 5 with (String.length "type "). rewrite substring_after_prefix
      by (rewrite !string_length_app; cbn; lia).
    rewrite list_ascii_of_string_app. change (list_ascii_of_string (" struct" +++ rest))
      with (" "%char :: list_ascii_of_string ("struct" +++ rest)).
    rewrite span_nonspace_app by (exact Hns || reflexivity).
    rewrite bool_decide_eq_true_2 by (destruct name; [done|discriminate]).
    cbn [andb]. change (" "%char :: list_ascii_of_string ("struct" +++ rest))
      with (list_ascii_of_string (" struct" +++ rest)).
    rewrite string_of_list_ascii_of_string. unfold startswith. rewrite prefix_app.
    by rewrite string_of_list_ascii_of_string.
Qed.

Definition all_space (s : string) : Prop :=
  Forall (fun c => is_space_c c = true) (list_ascii_of_string s).

Lemma take_while_app_head {A} (p : A -> bool) (a b : list A) :
  Forall (fun x => p x = true) a ->
  match b with [] => True | y :: _ => p y = false end ->
  take_while p (a ++ b) = a.
Proof.
  intros Ha Hb. destruct b as [|y b].
  - rewrite app_nil_r. induction Ha as [|x a Hx _ IH]; cbn; [done|by rewrite Hx, IH].
  - by apply take_while_app_stop.
Qed.

Lemma span_space_app (a b : list ascii) (c : ascii) :
  Forall (fun x => is_space_c x = true) a -> is_space_c c = false ->
  span_space (a ++ c :: b) = (a, c :: b).
Proof.
  intros Ha Hc. unfold span_space.
  by rewrite (take_while_app_stop _ _ _ _ Ha), (drop_while_app_stop _ _ _ _ Ha).
Qed.

Lemma nonempty_cons (s : string) : s <> EmptyString ->
  exists c l, list_ascii_of_string s = c :: l.
Proof. destruct s as [|c s]; [done|]. intros _. by exists c, (list_ascii_of_string s). Qed.

Lemma match_two_tokens_intro (f t ws1 ws2 r : string) (c : ascii) :
  f <> EmptyString -> no_space f -> t <> EmptyString -> no_space t ->
  ws1 <> EmptyString -> all_space ws1 -> ws2 <> EmptyString -> all_space ws2 ->
  is_space_c c = false ->
  match_two_tokens (TAB +++ f +++ ws1 +++ t +++ ws2 +++ String c r)
  = Some (f, t, c :: list_ascii_of_string r).
Proof.
  intros Hf Hfs Ht Hts Hw1 Hw1s Hw2 Hw2s Hc. unfold match_two_tokens.
  rewrite !list_ascii_of_string_app.
  change (list_ascii_of_string TAB) with [ascii_of_nat 9]. cbn [app].
  rewrite bool_decide_eq_true_2 by reflexivity.
  destruct (nonempty_cons ws1 Hw1) as (w1 & l1 & E1).
  destruct (nonempty_cons t Ht) as (t1 & lt & Et).
  destruct (nonempty_cons ws2 Hw2) as (w2 & l2 & E2).
  unfold no_space, all_space in *. rewrite E1 in Hw1s |- *. rewrite Et in Hts |- *.
  rewrite E2 in Hw2s |- *. apply Forall_cons in Hw1s as Hw1h, Hts as Hth, Hw2s as Hw2h.
  destruct Hw1h as [Hw1h _], Hth as [Hth _], Hw2h as [Hw2h _].
  change (list_ascii_of_string (String c r)) with (c :: list_ascii_of_string r). cbn [app].
  rewrite span_nonspace_app by assumption.
  change (w1 :: l1 ++ t1 :: lt ++ w2 :: l2 ++ c :: list_ascii_of_string r)
    with ((w1 :: l1) ++ t1 :: lt ++ w2 :: l2 ++ c :: list_ascii_of_string r).
  rewrite span_space_app by assumption.
  change (t1 :: lt ++ w2 :: l2 ++ c :: list_ascii_of_string r)
    with ((t1 :: lt) ++ w2 :: l2 ++ c :: list_ascii_of_string r).
  rewrite span_nonspace_app by assumption.
  change (w2 :: l2 ++ c :: list_ascii_of_string r)
    with ((w2 :: l2) ++ c :: list_ascii_of_string r).
  rewrite span_space_app by assumption.
  rewrite bool_decide_eq_true_2.
  2:{ repeat split; try discriminate. destruct f; [done|cbn; discriminate]. }
  rewrite <-Et, !string_of_list_ascii_of_string. reflexivity.
Qed.

(** A field line made of a tab, [f], spaces, [t], spaces, [`json:], a
    double quote and [g] is read by the [`json] pattern of [find_struct]
    as field [f], type [t] and tag [g], where [g] runs up to the first
    comma or double quote (or the end of the line). *)
Theorem match_json_intro (f t ws1 ws2 g rest : string) :
  f <> EmptyString -> no_space f -> t <> EmptyString -> no_space t ->
  ws1 <> EmptyString -> all_space ws1 -> ws2 <> EmptyString -> all_space ws2 ->
  g <> EmptyString -> Forall (fun c => not_comma_quote c = true) (list_ascii_of_string g) ->
  match list_ascii_of_string rest with [] => True | c :: _ => not_comma_quote c = false end ->
  match_json (TAB +++ f +++ ws1 +++ t +++ ws2 +++ "`json:" +++ DQ +++ g +++ rest) = Some (f, t, g).
Proof.
  intros Hf Hfs Ht Hts Hw1 Hw1s Hw2 Hw2s Hg Hgs Hr. unfold match_json.
  change ("`json:" +++ DQ +++ g +++ rest) with (String "`" ("json:" +++ DQ +++ g +++ rest)).
  rewrite match_two_tokens_intro by (assumption || reflexivity).
  change ("`"%char :: list_ascii_of_string ("json:" +++ DQ +++ g +++ rest))
    with (list_ascii_of_string ("`json:" +++ DQ +++ g +++ rest)).
  rewrite string_of_list_ascii_of_string. rewrite (str_app_assoc "`json:" DQ).
  unfold startswith. rewrite prefix_app.
  rewrite substring_after_prefix by (rewrite !string_length_app; lia).
  rewrite list_ascii_of_string_app, take_while_app_head by assumption.
  rewrite bool_decide_eq_true_2 by (by destruct g).
  by rewrite string_of_list_ascii_of_string.
Qed.

Lemma match_json_intro_witness :
  "Name"%string <> EmptyString /\ no_space "Name" /\ "*string"%string <> EmptyString /\
  no_space "*string" /\ " "%string <> EmptyString /\ all_space " " /\
  " "%string <> EmptyString /\ all_space " " /\ "name"%string <> EmptyString /\
  Forall (fun c => not_comma_quote c = true) (list_ascii_of_string "name") /\
  match list_ascii_of_string ("," +++ "omitempty" +++ DQ +++ "`") with
  | [] => True | c :: _ => not_comma_quote c = false end /\
  match_json (TAB +++ "Name" +++ " " +++ "*string" +++ " " +++ "`json:" +++ DQ +++ "name"
              +++ ("," +++ "omitempty" +++ DQ +++ "`"))
  = Some ("Name", "*string", "name")%string.
Proof.
  assert (H1 : "Name"%string <> EmptyString) by discriminate.
  assert (H2 : no_space "Name") by (unfold no_space; cbn; repeat constructor).
  assert (H3 : "*string"%string <> EmptyString) by discriminate.
  assert (H4 : no_space "*string") by (unfold no_space; cbn; repeat constructor).
  assert (H5 : " "%string <> EmptyString) by discriminate.
  assert (H6 : all_space " ") by (unfold all_space; cbn; repeat constructor).
  assert (H9 : "name"%string <> EmptyString) by discriminate.
  assert (H10 : Forall (fun c => not_comma_quote c = true) (list_ascii_of_string "name"))
    by (cbn; repeat constructor).
  assert (H11 : match list_ascii_of_string ("," +++ "omitempty" +++ DQ +++ "`") with
                | [] => True | c :: _ => not_comma_quote c = false end) by reflexivity.
  repeat (split; [assumption|]).
  exact (match_json_intro "Name" "*string" " " " " "name" ("," +++ "omitempty" +++ DQ +++ "`")
           H1 H2 H3 H4 H5 H6 H5 H6 H9 H10 H11).
Defined.

(** A union member line made of a tab, [f], spaces, [t], spaces and
    [`union] is read by the [`union] pattern of [find_struct] as field
    [f] and type [t]. *)
Theorem match_union_intro (f t ws1 ws2 rest : string) :
  f <> EmptyString -> no_space f -> t <> EmptyString -> no_space t ->
  ws1 <> EmptyString -> all_space ws1 -> ws2 <> EmptyString -> all_space ws2 ->
  match_union (TAB +++ f +++ ws1 +++ t +++ ws2 +++ "`union" +++ rest) = Some (f, t).
Proof.
  intros Hf Hfs Ht Hts Hw1 Hw1s Hw2 Hw2s. unfold match_union.
  change ("`union" +++ rest) with (String "`" ("union" +++ rest)).
  rewrite match_two_tokens_intro by (assumption || reflexivity).
  change ("`"%char :: list_ascii_of_string ("union" +++ rest))
    with (list_ascii_of_string ("`union" +++ rest)).
  rewrite string_of_list_ascii_of_string. unfold startswith. by rewrite prefix_app.
Qed.

Lemma match_union_intro_witness :
  "A"%string <> EmptyString /\ no_space "A" /\ "*AlphaV1"%string <> EmptyString /\
  no_space "*AlphaV1" /\ " "%string <> EmptyString /\ all_space " " /\
  " "%string <> EmptyString /\ all_space " " /\
  match_union (TAB +++ "A" +++ " " +++ "*AlphaV1" +++ " " +++ "`union"
               +++ (":" +++ DQ +++ "type,alpha" +++ DQ +++ "`"))
  = Some ("A", "*AlphaV1")%string.
Proof.
  assert (H1 : "A"%string <> EmptyString) by discriminate.
  assert (H2 : no_space "A") by (unfold no_space; cbn; repeat constructor).
  assert (H3 : "*AlphaV1"%string <> EmptyString) by discriminate.
  assert (H4 : no_space "*AlphaV1") by (unfold no_space; cbn; repeat constructor).
  assert (H5 : " "%string <> EmptyString) by discriminate.
  assert (H6 : all_space " ") by (unfold all_space; cbn; repeat constructor).
  repeat (split; [assumption|]).
  exact (match_union_intro "A" "*AlphaV1" " " " " (":" +++ DQ +++ "type,alpha" +++ DQ +++ "`")
           H1 H2 H3 H4 H5 H6 H5 H6).
Defined.

(** ** [maybe_write_output] *)




(** [("\n".join(lines) + "\n")]: every line is followed by a newline,
    and no lines give a single newline. *)
Theorem join_nl_terminated (lines : list string) :
  join_nl lines +++ NL =
  match lines with
  | [] => NL
  | _ => foldr (fun l acc => l +++ NL +++ acc) EmptyString lines
  end.
Proof.
  destruct lines as [|l rest]; [reflexivity|].
  revert l. induction rest as [|l' rest IH]; intros l.
  - cbn [join_nl foldr]. by rewrite str_app_nil_r.
  - change (join_nl (l :: l' :: rest)) with (l +++ NL +++ join_nl (l' :: rest)).
    rewrite <-!str_app_assoc, IH. reflexivity.
Qed.

(** ** The common-member getters of [go_unions] *)

Lemma exec_body_app (env : string -> option string) (a b : list gstmt) :
  exec_body env (a ++ b) =
  match exec_body env a with FellThrough => exec_body env b | o => o end.
Proof.
  induction a as [|s a IH]; [reflexivity|]. cbn [app exec_body].
  destruct (exec_stmt env s); [reflexivity|reflexivity|exact IH].
Qed.

Definition member_absent (env : string -> option string) (u : UnionSpec) : Prop :=
  env u.1 = None.

Lemma exec_common_guards_absent (env : string -> option string) (x cf : string)
    (pre : list UnionSpec) :
  Forall (member_absent env) pre ->
  exec_body env (map (fun '(field, _) => SIfNotNil x field [SReturn (GGetter x field cf)]) pre)
  = FellThrough.
Proof.
  induction 1 as [|[f t] pre Hf _ IH]; [reflexivity|].
  unfold member_absent in Hf. cbn [fst] in Hf. cbn [map exec_body exec_stmt]. by rewrite Hf.
Qed.

(** The emitted [Get<common_field>] of a union calls the getter of the
    first union member (in declared order) that is not nil, and panics
    with "no union member defined" when every member is nil. *)
Theorem union_common_func_dispatch (env : string -> option string)
    (x struct cf ty : string) (union_spec : list UnionSpec) :
  (forall pre f t post v, union_spec = pre ++ (f, t) :: post ->
     Forall (member_absent env) pre -> env f = Some v ->
     call_func env (union_common_func x struct union_spec cf ty) = Returned (VCall v cf)) /\
  (Forall (member_absent env) union_spec ->
     call_func env (union_common_func x struct union_spec cf ty)
     = Panicked "no union member defined").
Proof.
  unfold call_func, union_common_func. cbn [fn_body]. split.
  - intros pre f t post v -> Hpre Hf.
    rewrite map_app, <-app_assoc, exec_body_app, exec_common_guards_absent by exact Hpre.
    cbn [map app exec_body exec_stmt eval_expr]. by rewrite Hf.
  - intros Hall. rewrite exec_body_app, exec_common_guards_absent by exact Hall. reflexivity.
Qed.

Lemma union_common_func_dispatch_witness :
  let env := fun f => if String.eqb f "B" then Some "beta"%string else None in
  union_v1_spec = [("A", "*AlphaV1")] ++ ("B", "*BetaV1") :: [] /\
  Forall (member_absent env) [("A", "*AlphaV1")]%string /\ env "B" = Some "beta"%string /\
  call_func env (union_common_func "u" "UnionV1" union_v1_spec "Name" "string")
  = Returned (VCall "beta" "Name").
Proof.
  cbv zeta. split; [reflexivity|]. split; [repeat constructor|]. split; [reflexivity|].
  apply (proj1 (union_common_func_dispatch
                  (fun f => if String.eqb f "B" then Some "beta"%string else None)
                  "u" "UnionV1" "Name" "string" union_v1_spec)
           [("A", "*AlphaV1")]%string "B" "*BetaV1" [] "beta"); [reflexivity|repeat constructor|reflexivity].
Defined.

(** ** [get_defaulted_type] on missing and degenerate properties *)

(** A schema without ["properties"] makes [get_defaulted_type] fail with
    the error of the lookup; a tag missing from the properties, or whose
    property is [true], has no default and keeps its declared type; a
    property (or a ["properties"] value) that is neither an object nor
    [true] makes the [.get] call fail with [AttributeError]. *)
Theorem get_defaulted_type_degenerate (sch : Schema) (tag ty : string) :
  (forall e, py_getitem (schema sch) "properties" = Err e ->
     get_defaulted_type sch tag ty = Err e) /\
  (forall kvs props, schema sch = JObj kvs -> obj_lookup kvs "properties" = Some props ->
     (match props with JObj _ => False | _ => True end) ->
     get_defaulted_type sch tag ty = Err (ErrPython "AttributeError")) /\
  (forall kvs pk, schema sch = JObj kvs -> obj_lookup kvs "properties" = Some (JObj pk) ->
     obj_lookup pk tag = None \/ obj_lookup pk tag = Some (JBool true) ->
     exists req, get_defaulted_type sch tag ty = Ok (ty, None, req)) /\
  (forall kvs pk p, schema sch = JObj kvs -> obj_lookup kvs "properties" = Some (JObj pk) ->
     obj_lookup pk tag = Some p ->
     (match p with JObj _ | JBool true => False | _ => True end) ->
     get_defaulted_type sch tag ty = Err (ErrPython "AttributeError")).
Proof.
  unfold get_defaulted_type. repeat split.
  - intros e He. rewrite He. reflexivity.
  - intros kvs props Hs Hp Hn. unfold py_getitem. rewrite Hs, Hp. res_simpl.
    by destruct props.
  - intros kvs pk Hs Hp Ht. unfold py_getitem. rewrite Hs, Hp. res_simpl.
    assert (Hprop : py_get (JObj pk) tag (JObj []) = Ok (JObj [])
                    \/ py_get (JObj pk) tag (JObj []) = Ok (JBool true))
      by (unfold py_get; destruct Ht as [-> | ->]; auto).
    destruct Hprop as [-> | ->]; cbn [result_bind py_get obj_lookup py_opt];
      destruct (obj_lookup kvs "required") as [r|]; cbn [result_bind];
      (destruct (truthy _); cbn [result_bind];
       [|destruct (obj_lookup kvs "eventuallyRequired")]); cbn [result_bind]; by eexists.
  - intros kvs pk p Hs Hp Ht Hn. unfold py_getitem. rewrite Hs, Hp. res_simpl.
    cbn [py_get]. rewrite Ht. cbn [result_bind].
    destruct p as [| [] | | | |]; try done.
Qed.

Lemma get_defaulted_type_degenerate_witness :
  let sch := mkSchema "u" "t" (JObj [("title", JStr "T"); ("properties", JObj [("a", JBool true)])])
               "TV1" "t_v1" in
  schema sch = JObj [("title", JStr "T"); ("properties", JObj [("a", JBool true)])] /\
  obj_lookup [("title", JStr "T"); ("properties", JObj [("a", JBool true)])] "properties"
  = Some (JObj [("a", JBool true)]) /\
  obj_lookup [("a", JBool true)] "a" = Some (JBool true) /\
  exists req, get_defaulted_type sch "a" "*int" = Ok ("*int", None, req).
Proof.
  cbv zeta. split; [reflexivity|]. split; [reflexivity|]. split; [reflexivity|].
  apply (proj1 (proj2 (proj2 (get_defaulted_type_degenerate
    (mkSchema "u" "t" (JObj [("title", JStr "T"); ("properties", JObj [("a", JBool true)])])
       "TV1" "t_v1") "a" "*int")))
    [("title", JStr "T"); ("properties", JObj [("a", JBool true)])] [("a", JBool true)]);
    [reflexivity|reflexivity|right; reflexivity].
Defined.

(** ** The [--imports] option of [go_struct_main] *)

Definition no_char (ch : ascii) (s : string) : Prop :=
  Forall (fun c => c <> ch) (list_ascii_of_string s).

Lemma replace_colon_id (l : list ascii) : Forall (fun c => c <> ":"%char) l -> replace_colon l = l.
Proof.
  induction 1 as [|c l Hc _ IH]; [reflexivity|]. cbn. by rewrite bool_decide_eq_false_2, IH.
Qed.

Lemma replace_colon_app (a b : list ascii) : replace_colon (a ++ b) = replace_colon a ++ replace_colon b.
Proof. induction a as [|c a IH]; [reflexivity|]. cbn. rewrite IH. by case_bool_decide. Qed.

Lemma existsb_colon_none (l : list ascii) :
  Forall (fun c => c <> ":"%char) l -> existsb (fun c => bool_decide (c = ":"%char)) l = false.
Proof. induction 1 as [|c l Hc _ IH]; [reflexivity|]. cbn. by rewrite bool_decide_eq_false_2, IH. Qed.

(** [fmt_import] turns [alias:path] into [alias "path"] and quotes an
    import without a colon. *)
Theorem fmt_import_cases (alias path imp : string) :
  (no_char ":" alias -> no_char ":" path ->
   fmt_import (alias +++ ":" +++ path) = alias +++ " " +++ DQ +++ path +++ DQ) /\
  (no_char ":" imp -> fmt_import imp = DQ +++ imp +++ DQ).
Proof.
  unfold fmt_import, no_char. split.
  - intros Ha Hp. rewrite list_ascii_of_string_app.
    change (list_ascii_of_string (":" +++ path)) with (":"%char :: list_ascii_of_string path).
    rewrite existsb_app. cbn [existsb]. rewrite bool_decide_eq_true_2 by reflexivity.
    rewrite orb_true_r. rewrite replace_colon_app. cbn [replace_colon].
    rewrite bool_decide_eq_true_2 by reflexivity. rewrite !replace_colon_id by assumption.
    rewrite string_of_list_ascii_app, string_of_list_ascii_of_string.
    change (string_of_list_ascii (" "%char :: ascii_of_nat 34 :: list_ascii_of_string path))
      with (" " +++ DQ +++ string_of_list_ascii (list_ascii_of_string path)).
    rewrite string_of_list_ascii_of_string, <-!str_app_assoc. reflexivity.
  - intros Hi. by rewrite existsb_colon_none.
Qed.

Lemma fmt_import_cases_witness :
  no_char ":" "k8sV1" /\ no_char ":" "k8s.io/api/core/v1" /\
  fmt_import ("k8sV1" +++ ":" +++ "k8s.io/api/core/v1")
  = "k8sV1" +++ " " +++ DQ +++ "k8s.io/api/core/v1" +++ DQ.
Proof.
  assert (H1 : no_char ":" "k8sV1") by (unfold no_char; cbn; repeat constructor; discriminate).
  assert (H2 : no_char ":" "k8s.io/api/core/v1")
    by (unfold no_char; cbn; repeat constructor; discriminate).
  split; [exact H1|]. split; [exact H2|].
  exact (proj1 (fmt_import_cases "k8sV1" "k8s.io/api/core/v1" "") H1 H2).
Defined.

Lemma split_comma_l_none (l : list ascii) :
  Forall (fun c => c <> ","%char) l -> split_comma_l l = [l].
Proof.
  induction 1 as [|c l Hc _ IH]; [reflexivity|]. cbn. rewrite IH.
  by rewrite bool_decide_eq_false_2.
Qed.

Lemma split_comma_l_app (a b : list ascii) :
  Forall (fun c => c <> ","%char) a -> split_comma_l (a ++ ","%char :: b) = a :: split_comma_l b.
Proof.
  induction 1 as [|c a Hc _ IH]; [cbn; by rewrite bool_decide_eq_true_2|].
  cbn [app split_comma_l]. rewrite IH. by rewrite bool_decide_eq_false_2.
Qed.

Lemma split_comma_concat (x : string) (xs : list string) :
  Forall (no_char ",") (x :: xs) -> split_comma (String.concat "," (x :: xs)) = x :: xs.
Proof.
  revert x. induction xs as [|y xs IH]; intros x Hall; apply Forall_cons in Hall as [Hx Hxs].
  - unfold split_comma. cbn [String.concat]. rewrite split_comma_l_none by exact Hx.
    cbn [map]. by rewrite string_of_list_ascii_of_string.
  - change (String.concat "," (x :: y :: xs)) with (x +++ "," +++ String.concat "," (y :: xs)).
    unfold split_comma. rewrite list_ascii_of_string_app.
    change (list_ascii_of_string ("," +++ String.concat "," (y :: xs)))
      with (","%char :: list_ascii_of_string (String.concat "," (y :: xs))).
    rewrite split_comma_l_app by exact Hx. cbn [map].
    rewrite string_of_list_ascii_of_string. f_equal. exact (IH y Hxs).
Qed.

(** [--imports] is split at its commas; every non-empty item is
    formatted by [fmt_import], in order, and empty items are dropped. *)
Theorem imports_list_items (xs : list string) :
  Forall (no_char ",") xs ->
  imports_list (Some (String.concat "," xs)) = map fmt_import (filter (fun i => i <> EmptyString) xs).
Proof.
  intros Hall. unfold imports_list. destruct xs as [|x xs]; [reflexivity|].
  by rewrite split_comma_concat.
Qed.

Lemma imports_list_items_witness :
  Forall (no_char ",") ["k8sV1:k8s.io/api/core/v1"; EmptyString; "foo"]%string /\
  imports_list (Some (String.concat "," ["k8sV1:k8s.io/api/core/v1"; EmptyString; "foo"]%string))
  = map fmt_import (filter (fun i => i <> EmptyString)
                      ["k8sV1:k8s.io/api/core/v1"; EmptyString; "foo"]%string).
Proof.
  assert (H : Forall (no_char ",") ["k8sV1:k8s.io/api/core/v1"; EmptyString; "foo"]%string)
    by (unfold no_char; cbn; repeat constructor; discriminate).
  split; [exact H|]. exact (imports_list_items _ H).
Defined.

(** ** [list_files] *)

Lemma concat_perm {A} (l l' : list (list A)) : l ≡ₚ l' -> concat l ≡ₚ concat l'.
Proof.
  induction 1 as [|x l l' _ IH|x y l|l l' l'' _ IH1 _ IH2]; cbn [concat].
  - done.
  - by apply Permutation_app_head.
  - rewrite !app_assoc. apply Permutation_app_tail, Permutation_app_comm.
  - by etrans.
Qed.

Lemma merge_sort_str_perm (l l' : list string) :
  l ≡ₚ l' -> merge_sort str_le l = merge_sort str_le l'.
Proof.
  intros Hp. apply (Sorted_unique_strong str_le);
    [| apply Sorted_merge_sort; apply _ | apply Sorted_merge_sort; apply _ |].
  - intros x1 x2 _ _ H12 H21. exact (str_le_antisym _ _ H12 H21).
  - by rewrite !merge_sort_Permutation.
Qed.

(** [list_files] returns the [.json] files of the walk in sorted order,
    whatever order [os.walk] visits the directories in and whatever
    order it lists the files of a directory in. *)
Theorem list_files_order_independent (walk walk' : list (string * list string)) :
  Sorted str_le (list_files walk) /\
  (walk ≡ₚ walk' -> list_files walk = list_files walk') /\
  (Forall2 (fun e e' => e.1 = e'.1 /\ e.2 ≡ₚ e'.2) walk walk' ->
   list_files walk = list_files walk').
Proof.
  unfold list_files. split; [apply Sorted_merge_sort; apply _|]. split.
  - intros Hp. apply merge_sort_str_perm, concat_perm, Permutation_map, Hp.
  - intros H2. apply merge_sort_str_perm.
    induction H2 as [|[d fs] [d' fs'] w w' [Hd Hfs] _ IH]; [done|].
    cbn [map concat fst snd] in *. subst d'. apply Permutation_app; [|exact IH].
    apply Permutation_map. by rewrite Hfs.
Qed.

Lemma list_files_order_independent_witness :
  [("expconf/v1", ["b.json"; "a.json"; "README.md"])]
  ≡ₚ [("expconf/v1", ["b.json"; "a.json"; "README.md"])] /\
  Forall2 (fun (e e' : string * list string) => e.1 = e'.1 /\ e.2 ≡ₚ e'.2)
    [("expconf/v1", ["b.json"; "a.json"; "README.md"])]
    [("expconf/v1", ["README.md"; "a.json"; "b.json"])] /\
  list_files [("expconf/v1", ["b.json"; "a.json"; "README.md"])]
  = list_files [("expconf/v1", ["README.md"; "a.json"; "b.json"])].
Proof.
  assert (H : Forall2 (fun (e e' : string * list string) => e.1 = e'.1 /\ e.2 ≡ₚ e'.2)
                [("expconf/v1", ["b.json"; "a.json"; "README.md"])]
                [("expconf/v1", ["README.md"; "a.json"; "b.json"])]).
  { constructor; [|constructor]. split; [reflexivity|]. cbn.
    etrans; [apply Permutation_swap|]. etrans; [apply perm_skip, Permutation_swap|].
    apply Permutation_swap. }
  split; [done|]. split; [exact H|].
  exact (proj2 (proj2 (list_files_order_independent
    [("expconf/v1", ["b.json"; "a.json"; "README.md"])]
    [("expconf/v1", ["README.md"; "a.json"; "b.json"])])) H).
Defined.

(** ** The aggregate emitters *)

Lemma list_sum_map_const {A} (k : nat) (l : list A) :
  list_sum (map (fun _ => k) l) = length l * k.
Proof.
  induction l as [|x l IH]; [done|].
  change (k + list_sum (map (fun _ => k) l) = S (length l) * k). rewrite IH. lia.
Qed.

Lemma app_infix_l {A} (a b m : list A) :
  (exists p q, b = p ++ m ++ q) -> exists p q, a ++ b = p ++ m ++ q.
Proof. intros (p & q & ->). exists (a ++ p), q. by rewrite <-app_assoc. Qed.

Lemma app_infix_r {A} (a b m : list A) :
  (exists p q, a = p ++ m ++ q) -> exists p q, a ++ b = p ++ m ++ q.
Proof. intros (p & q & ->). exists p, (q ++ b). by rewrite <-!app_assoc. Qed.

Lemma concat_map_infix {A B} (g : A -> list B) (l : list A) (x : A) :
  x ∈ l -> exists p q, concat (map g l) = p ++ g x ++ q.
Proof.
  intros Hx. apply list_elem_of_split in Hx as (l1 & l2 & ->).
  exists (concat (map g l1)), (concat (map g l2)). by rewrite map_app, concat_app.
Qed.

(** The Go [schemas] package has [22 + 16 n] lines for [n] schemas, and
    it registers every schema's text under its URL in
    [schemaBytesMap]. *)
Theorem gen_go_schemas_package_registers (schemas : list Schema) :
  length (gen_go_schemas_package schemas) = 22 + 16 * length schemas /\
  forall s, s ∈ schemas ->
  exists pre post, gen_go_schemas_package schemas =
    pre ++ [TAB +++ "url = " +++ DQ +++ url s +++ DQ;
            TAB +++ "cachedSchemaBytesMap[url] = text" +++ golang_title s] ++ post.
Proof.
  split.
  - unfold gen_go_schemas_package. rewrite !length_app, !length_map.
    rewrite !length_concat. rewrite !map_map. cbn [length].
    rewrite !list_sum_map_const. lia.
  - intros s Hs. unfold gen_go_schemas_package.
    do 6 apply app_infix_l. apply app_infix_r.
    exact (concat_map_infix (fun s => [TAB +++ "url = " +++ DQ +++ url s +++ DQ;
      TAB +++ "cachedSchemaBytesMap[url] = text" +++ golang_title s]) schemas s Hs).
Qed.

Lemma gen_go_schemas_package_registers_witness :
  foo_schema ∈ [foo_schema; union_v1_schema] /\
  length (gen_go_schemas_package [foo_schema; union_v1_schema]) = 22 + 16 * 2 /\
  exists pre post, gen_go_schemas_package [foo_schema; union_v1_schema] =
    pre ++ [TAB +++ "url = " +++ DQ +++ url foo_schema +++ DQ;
            TAB +++ "cachedSchemaBytesMap[url] = text" +++ golang_title foo_schema] ++ post.
Proof.
  assert (H : foo_schema ∈ [foo_schema; union_v1_schema]) by (left; reflexivity).
  split; [exact H|].
  destruct (gen_go_schemas_package_registers [foo_schema; union_v1_schema]) as [Hl Hr].
  split; [exact Hl|]. exact (Hr foo_schema H).
Defined.

(** The Python module has [6 + 3 n] lines for [n] schemas, and maps
    every schema's URL to [json.loads] of its text in a raw
    triple-quoted string. *)
Theorem gen_python_entries (schemas : list Schema) :
  length (gen_python schemas) = 6 + 3 * length schemas /\
  forall s, s ∈ schemas ->
  exists pre post, gen_python schemas =
    pre ++ ["    " +++ DQ +++ url s +++ DQ +++ ": json.loads(";
            "        r" +++ TQ +++ NL +++ text s +++ NL +++ TQ;
            "    ),"] ++ post.
Proof.
  split.
  - unfold gen_python. rewrite !length_app, length_concat, map_map. cbn [length].
    rewrite list_sum_map_const. lia.
  - intros s Hs. unfold gen_python. apply app_infix_l, app_infix_r.
    exact (concat_map_infix (fun s => ["    " +++ DQ +++ url s +++ DQ +++ ": json.loads(";
            "        r" +++ TQ +++ NL +++ text s +++ NL +++ TQ; "    ),"]) schemas s Hs).
Qed.

Lemma gen_python_entries_witness :
  foo_schema ∈ [foo_schema] /\
  length (gen_python [foo_schema]) = 6 + 3 * 1 /\
  exists pre post, gen_python [foo_schema] =
    pre ++ ["    " +++ DQ +++ url foo_schema +++ DQ +++ ": json.loads(";
            "        r" +++ TQ +++ NL +++ text foo_schema +++ NL +++ TQ;
            "    ),"] ++ post.
Proof.
  assert (H : foo_schema ∈ [foo_schema]) by (left; reflexivity).
  split; [exact H|].
  destruct (gen_python_entries [foo_schema]) as [Hl Hr].
  split; [exact Hl|]. exact (Hr foo_schema H).
Defined.

(** ** [gen_go_struct] *)

Lemma new_Schema_python_title (json_loads : string -> option json) (u t : string) (s : Schema) :
  new_Schema json_loads u t = Ok s -> camel_to_snake (golang_title s) = Ok (python_title s).
Proof.
  unfold new_Schema. destruct (json_loads t) as [j|]; [|discriminate]. res_simpl.
  destruct (py_getitem j "title") as [[]|]; res_simpl; try discriminate.
  destruct (camel_to_snake _) eqn:E; res_simpl; [|discriminate].
  intros H. apply ok_inj in H. by subst s.
Qed.

Lemma find_schema_ok_inv (json_loads : string -> option json)
    (listdir : string -> option (list (string * string))) (package struct : string) (sch : Schema) :
  find_schema json_loads listdir package struct = Ok sch ->
  golang_title sch = struct /\ camel_to_snake struct = Ok (python_title sch).
Proof.
  unfold find_schema. destruct (re_match_version _); cbn [negb]; [|discriminate].
  destruct (listdir _) as [entries|]; [|discriminate]. intros Hl.
  destruct (find_schema_loop_found json_loads _ _ _ entries sch Hl)
    as (pre & file & c & rest & _ & _ & Hs & Ht & _).
  split; [exact Ht|]. rewrite <-Ht. exact (new_Schema_python_title _ _ _ _ Hs).
Qed.

(** A successful [gen_go_struct] works on the struct [next_struct_name]
    finds, names its output [zgen_<python_title>.go] after the schema
    with that Go name, starts it with the generated-code header and the
    given imports, and ends it with the schema interface methods. *)
Theorem gen_go_struct_output (json_loads : string -> option json)
    (listdir : string -> option (list (string * string))) (package : string)
    (file : list string) (line : nat) (imports : list string) (fname : string)
    (lines : list string) :
  gen_go_struct json_loads listdir package file line imports = Ok (fname, lines) ->
  exists struct sch iface mid,
    next_struct_name file line = Ok struct /\
    find_schema json_loads listdir package struct = Ok sch /\
    golang_title sch = struct /\
    fname = "zgen_" +++ python_title sch +++ ".go" /\
    go_schema_interface struct (url sch) = Ok iface /\
    lines = ["// Code generated by gen.py. DO NOT EDIT."; EmptyString;
             "package " +++ package; EmptyString; "import (";
             TAB +++ DQ +++ "github.com/santhosh-tekuri/jsonschema/v2" +++ DQ]
            ++ map (fun imp => TAB +++ imp) imports ++ mid ++ iface.
Proof.
  unfold gen_go_struct. res_simpl.
  destruct (next_struct_name file line) as [struct|] eqn:En; cbn [result_bind]; [|discriminate].
  destruct (find_struct file struct) as [[fs us]|] eqn:Ef; cbn [result_bind]; [|discriminate].
  destruct (bool_decide _); [discriminate|].
  destruct (find_schema json_loads listdir package struct) as [sch|] eqn:Es;
    cbn [result_bind]; [|discriminate].
  destruct (go_getters struct sch fs) as [getters|]; cbn [result_bind]; [|discriminate].
  destruct (go_unions json_loads listdir struct package file sch us) as [unions|];
    cbn [result_bind]; [|discriminate].
  destruct (go_helpers struct) as [helpers|]; cbn [result_bind]; [|discriminate].
  destruct (go_schema_interface struct (url sch)) as [iface|] eqn:Ei;
    cbn [result_bind]; [|discriminate].
  destruct (find_schema_ok_inv _ _ _ _ _ Es) as [Ht Hp]. rewrite Hp. cbn [result_bind].
  intros H. apply ok_inj in H. injection H as <- <-.
  exists struct, sch, iface,
    ([EmptyString; TAB +++ DQ +++ "github.com/determined-ai/determined/master/pkg/schemas" +++ DQ;
      ")"; EmptyString] ++ getters ++ unions ++ helpers).
  repeat split; try done. rewrite <-!app_assoc. reflexivity.
Qed.

Lemma gen_go_struct_output_witness :
  exists fname lines,
  gen_go_struct fixture_loads fixture_listdir "expconf" expconf_go 1 ["foo"] = Ok (fname, lines) /\
  exists struct sch iface mid,
    next_struct_name expconf_go 1 = Ok struct /\
    find_schema fixture_loads fixture_listdir "expconf" struct = Ok sch /\
    golang_title sch = struct /\
    fname = "zgen_" +++ python_title sch +++ ".go" /\
    go_schema_interface struct (url sch) = Ok iface /\
    lines = ["// Code generated by gen.py. DO NOT EDIT."; EmptyString;
             "package " +++ "expconf"; EmptyString; "import (";
             TAB +++ DQ +++ "github.com/santhosh-tekuri/jsonschema/v2" +++ DQ]
            ++ map (fun imp => TAB +++ imp) ["foo"] ++ mid ++ iface.
Proof.
  destruct (gen_go_struct fixture_loads fixture_listdir "expconf" expconf_go 1 ["foo"])
    as [[fname lines]|e] eqn:E; [|vm_compute in E; discriminate].
  exists fname, lines. split; [reflexivity|].
  exact (gen_go_struct_output fixture_loads fixture_listdir "expconf" expconf_go 1 ["foo"]
           fname lines E).
Defined.

(** ** The command-line entry points *)







Lemma match_type_struct_iff_witness :
  match_type_struct ("type FooV1 struct {" +++ NL) = Some "FooV1"%string /\
  (match_type_struct ("type FooV1 struct {" +++ NL) = Some "FooV1"%string <->
   "FooV1"%string <> EmptyString /\ no_space "FooV1" /\
   exists rest, "type FooV1 struct {" +++ NL = "type " +++ "FooV1" +++ " struct" +++ rest).
Proof.
  split; [vm_compute; reflexivity|].
  exact (match_type_struct_iff ("type FooV1 struct {" +++ NL) "FooV1").
Defined.
